(** * build_ml_pipeline.py: a shallow embedding of the provisioning script

    The script of [azureml/build_ml_pipeline.py] is a sequence of calls to
    the Azure ML SDK, the Databricks REST client, adal and argparse.  The
    embedding keeps the script's own code (the five functions of the module)
    as monadic definitions over an explicit event log, and leaves what the
    services answer to an arbitrary environment. *)

From Stdlib Require Import String Ascii List ZArith Lia Bool Arith.
Import ListNotations.
Local Open Scope string_scope.
Set Warnings "-register-all".

(** ** Values exchanged with the REST client

    [dbricks_client.get] and [dbricks_client.post] return the decoded JSON
    body of the answer.  An object is an association list in the order of the
    document; a lookup takes the first binding of a key.  Numbers are the
    integers (no Databricks field read by the script is a float). *)

Inductive json : Type :=
| JNull
| JBool (b : bool)
| JNum (z : Z)
| JStr (s : string)
| JArr (items : list json)
| JObj (fields : list (string * json)).

(** ** Exceptions *)

Inductive exn : Type :=
| NameError (name : string)
| KeyError (key : string)
| TypeError (what : string)
| AttributeError (attr : string)
| ValueError (msg : string)
| SystemExit
| OtherError (cls : string) (msg : string).

Inductive result (A : Type) : Type :=
| Ok (a : A)
| Err (e : exn).
Arguments Ok {A} a.
Arguments Err {A} e.

Definition rbind {A B} (r : result A) (f : A -> result B) : result B :=
  match r with
  | Ok a => f a
  | Err e => Err e
  end.

(** The value of an attribute of the parsed command line: a string, [None]
    for an option without default that was not given, or the empty list
    argparse stores for the explicit value [--] (as in [--build_id=--]). *)
Inductive attr_value : Type :=
| NoneValue
| StrValue (s : string)
| EmptyList.

(** ** Python operators on decoded JSON *)

Fixpoint assoc {A} (k : string) (d : list (string * A)) : option A :=
  match d with
  | [] => None
  | (k', v) :: rest => if String.eqb k' k then Some v else assoc k rest
  end.

(** [bool(v)]. *)
Definition truthy (v : json) : bool :=
  match v with
  | JNull => false
  | JBool b => b
  | JNum z => negb (Z.eqb z 0)
  | JStr s => negb (String.eqb s "")
  | JArr items => match items with [] => false | _ => true end
  | JObj fields => match fields with [] => false | _ => true end
  end.

(** [v == s] for a [str] [s]: only a string with the same characters is
    equal to a string. *)
Definition py_eq_str (v : json) (s : string) : bool :=
  match v with
  | JStr s' => String.eqb s' s
  | _ => false
  end.

Definition is_substring (k s : string) : bool :=
  match String.index 0 k s with
  | Some _ => true
  | None => false
  end.

(** [k in v] for a [str] [k]: key membership on a dict, element membership
    on a list, substring on a string, [TypeError] on the scalars. *)
Definition py_contains (k : string) (v : json) : result bool :=
  match v with
  | JObj fields => Ok (match assoc k fields with Some _ => true | None => false end)
  | JArr items => Ok (existsb (fun x => py_eq_str x k) items)
  | JStr s => Ok (is_substring k s)
  | _ => Err (TypeError "argument is not iterable")
  end.

(** [v[k]] for a [str] [k]. *)
Definition py_getitem (v : json) (k : string) : result json :=
  match v with
  | JObj fields =>
      match assoc k fields with
      | Some x => Ok x
      | None => Err (KeyError k)
      end
  | JArr _ => Err (TypeError "list indices must be integers or slices, not str")
  | JStr _ => Err (TypeError "string indices must be integers")
  | _ => Err (TypeError "object is not subscriptable")
  end.

Fixpoint chars (s : string) : list json :=
  match s with
  | EmptyString => []
  | String c rest => JStr (String c EmptyString) :: chars rest
  end.

(** The items a [for] loop over [v] visits. *)
Definition py_iter (v : json) : result (list json) :=
  match v with
  | JArr items => Ok items
  | JObj fields => Ok (map (fun kv => JStr (fst kv)) fields)
  | JStr s => Ok (chars s)
  | _ => Err (TypeError "object is not iterable")
  end.

(** ** Bytes, SHA-1 and Base64

    A Python [str] is represented by its UTF-8 encoding, one [ascii] per
    byte, as Rocq's string literals are; [encode('utf-8')] then gives the
    bytes of the representation. *)

Definition bytes := list Z.

Local Open Scope Z_scope.

Definition encode_utf8 (s : string) : bytes :=
  map (fun c => Z.of_N (N_of_ascii c)) (list_ascii_of_string s).

Definition w32 (x : Z) : Z := Z.land x 4294967295.

Definition rotl (n x : Z) : Z :=
  w32 (Z.lor (Z.shiftl x n) (Z.shiftr x (32 - n))).

(** [n] as [k] big-endian bytes. *)
Fixpoint be_bytes (k : nat) (n : Z) : bytes :=
  match k with
  | O => []
  | S k' => (be_bytes k' (Z.shiftr n 8) ++ [Z.land n 255])%list
  end.

Definition sha1_pad (msg : bytes) : bytes :=
  let l := Z.of_nat (length msg) in
  (msg ++ [128] ++ repeat 0 (Z.to_nat ((55 - l) mod 64)) ++ be_bytes 8 (8 * l))%list.

Fixpoint be_word (bs : bytes) (acc : Z) : Z :=
  match bs with
  | [] => acc
  | b :: rest => be_word rest (Z.lor (Z.shiftl acc 8) b)
  end.

(** The sixteen big-endian words of a 64-byte block. *)
Fixpoint block_words (n : nat) (block : bytes) : list Z :=
  match n with
  | O => []
  | S n' => be_word (firstn 4 block) 0 :: block_words n' (skipn 4 block)
  end.

Fixpoint sha1_schedule (n : nat) (w : list Z) : list Z :=
  match n with
  | O => w
  | S n' =>
      let i := length w in
      let x := Z.lxor (Z.lxor (nth (i - 3)%nat w 0) (nth (i - 8)%nat w 0))
                      (Z.lxor (nth (i - 14)%nat w 0) (nth (i - 16)%nat w 0)) in
      sha1_schedule n' (w ++ [rotl 1 x])%list
  end.

Definition sha1_state : Type := Z * Z * Z * Z * Z.

Definition sha1_round (i : nat) (st : sha1_state) (wi : Z) : sha1_state :=
  let '(a, b, c, d, e) := st in
  let '(f, k) :=
    if Nat.ltb i 20 then (Z.lor (Z.land b c) (Z.land (w32 (Z.lnot b)) d), 1518500249)
    else if Nat.ltb i 40 then (Z.lxor (Z.lxor b c) d, 1859775393)
    else if Nat.ltb i 60 then
      (Z.lor (Z.lor (Z.land b c) (Z.land b d)) (Z.land c d), 2400959708)
    else (Z.lxor (Z.lxor b c) d, 3395469782) in
  (w32 (rotl 5 a + f + e + k + wi), a, rotl 30 b, c, d).

Fixpoint sha1_rounds (i : nat) (ws : list Z) (st : sha1_state) : sha1_state :=
  match ws with
  | [] => st
  | wi :: rest => sha1_rounds (S i) rest (sha1_round i st wi)
  end.

Definition sha1_block (h : sha1_state) (block : bytes) : sha1_state :=
  let '(h0, h1, h2, h3, h4) := h in
  let '(a, b, c, d, e) :=
    sha1_rounds 0%nat (sha1_schedule 64 (block_words 16 block)) h in
  (w32 (h0 + a), w32 (h1 + b), w32 (h2 + c), w32 (h3 + d), w32 (h4 + e)).

Fixpoint sha1_blocks (n : nat) (data : bytes) (h : sha1_state) : sha1_state :=
  match n with
  | O => h
  | S n' => sha1_blocks n' (skipn 64 data) (sha1_block h (firstn 64 data))
  end.

(** [hashlib.sha1(data).digest()], twenty bytes. *)
Definition sha1 (data : bytes) : bytes :=
  let padded := sha1_pad data in
  let '(h0, h1, h2, h3, h4) :=
    sha1_blocks (length padded / 64)%nat padded
      (1732584193, 4023233417, 2562383102, 271733878, 3285377520) in
  (be_bytes 4 h0 ++ be_bytes 4 h1 ++ be_bytes 4 h2 ++ be_bytes 4 h3 ++ be_bytes 4 h4)%list.

Definition hex_digit (n : Z) : ascii :=
  ascii_of_N (Z.to_N (if Z.ltb n 10 then 48 + n else 87 + n)).

(** [.hexdigest()]: two lower-case digits per byte. *)
Fixpoint hexdigest (bs : bytes) : string :=
  match bs with
  | [] => EmptyString
  | b :: rest =>
      String (hex_digit (Z.shiftr b 4)) (String (hex_digit (Z.land b 15)) (hexdigest rest))
  end.

Definition b64_char (n : Z) : ascii :=
  ascii_of_N (Z.to_N
    (if Z.ltb n 26 then 65 + n
     else if Z.ltb n 52 then 71 + n
     else if Z.ltb n 62 then n - 4
     else if Z.eqb n 62 then 43 else 47)).

(** [base64.b64encode(data).decode('ascii')]. *)
Fixpoint b64encode (data : bytes) : string :=
  match data with
  | [] => EmptyString
  | [a] =>
      String (b64_char (Z.shiftr a 2))
        (String (b64_char (Z.shiftl (Z.land a 3) 4)) "==")
  | [a; b] =>
      String (b64_char (Z.shiftr a 2))
        (String (b64_char (Z.lor (Z.shiftl (Z.land a 3) 4) (Z.shiftr b 4)))
           (String (b64_char (Z.shiftl (Z.land b 15) 2)) "="))
  | a :: b :: c :: rest =>
      String (b64_char (Z.shiftr a 2))
        (String (b64_char (Z.lor (Z.shiftl (Z.land a 3) 4) (Z.shiftr b 4)))
           (String (b64_char (Z.lor (Z.shiftl (Z.land b 15) 2) (Z.shiftr c 6)))
              (String (b64_char (Z.land c 63)) (b64encode rest))))
  end.

Local Close Scope Z_scope.

(** ** Objects of the SDKs

    What the script reads from an SDK object is a field of its record; an
    object it only passes on is a handle. *)

(** A compute target of the workspace; [compute_class] is its Python class
    ([type(compute_target)]). *)
Record ComputeTarget : Type := {
  compute_class : string;
  compute_id : string
}.

Record Workspace : Type := {
  ws_name : string;
  subscription_id : string;
  resource_group : string;
  location : string;
  compute_targets : list (string * ComputeTarget)
}.

(** [aml_run.experiment.workspace]. *)
Record Run : Type := { experiment_workspace : Workspace }.

Inductive sdk_class : Type :=
| Keyvault | ServicePrincipalAuthentication | AuthenticationContext
| DatabricksClient | AttachConfiguration | Datastore | DataReference
| PipelineData | DatabricksStep | Pipeline | PublishedPipeline.

Record obj (c : sdk_class) : Type := { handle : nat }.
Arguments handle {c} o.

(** The closure [token_callback] of [main] with the variables it captures. *)
Record TokenCallback : Type := {
  cb_context : obj AuthenticationContext;
  cb_client_id : string;
  cb_client_secret : string
}.

(** The keyword arguments of the [DatabricksStep] constructor. *)
Record StepArgs : Type := {
  step_name : string;
  inputs : list (obj DataReference);
  outputs : list (obj PipelineData);
  spark_version : string;
  instance_pool_id : json;
  num_workers : Z;
  notebook_path : string;
  run_name : string;
  compute_target : ComputeTarget;
  allow_reuse : bool
}.

(** ** Calls that leave the script

    One constructor per SDK, REST or file operation the module performs,
    indexed by the type of what it returns.  [allow_offline=False],
    [show_output=True] and the other constant arguments are part of the
    constructor's meaning. *)

Inductive call : Type -> Type :=
| Run_get_context : call Run
| get_default_keyvault (ws : Workspace) : call (obj Keyvault)
| get_secret (vault : obj Keyvault) (name : string) : call string
| new_ServicePrincipalAuthentication (tenant_id service_principal_id
    service_principal_password : string) : call (obj ServicePrincipalAuthentication)
| new_Workspace (subscription resource_grp name : string)
    (auth : obj ServicePrincipalAuthentication) : call Workspace
| Workspace_from_config : call Workspace
| new_AuthenticationContext (authority_uri : string) : call (obj AuthenticationContext)
| databricks_client_create (api : string) : call (obj DatabricksClient)
| auth_azuread (client : obj DatabricksClient) (resource_grp : string)
    (workspace_name : attr_value) (subscription : string)
    (token_callback : TokenCallback) : call unit
| client_post (client : obj DatabricksClient) (endpoint : string) (body : json) : call json
| client_get (client : obj DatabricksClient) (endpoint : string) : call json
| attach_configuration (resource_grp : string) (workspace_name : attr_value)
    (access_token : json) : call (obj AttachConfiguration)
| ComputeTarget_attach (ws : Workspace) (name : string)
    (config : obj AttachConfiguration) : call ComputeTarget
| wait_for_completion (target : ComputeTarget) : call unit
| read_text_file (path : string) : call string
| new_Datastore (ws : Workspace) (name : string) : call (obj Datastore)
| new_DataReference (datastore : obj Datastore) (path_on_datastore
    data_reference_name : string) : call (obj DataReference)
| new_PipelineData (name : string) (datastore : obj Datastore) : call (obj PipelineData)
| new_DatabricksStep (args : StepArgs) : call (obj DatabricksStep)
| new_Pipeline (ws : Workspace) (steps : list (obj DatabricksStep)) : call (obj Pipeline)
| validate (pipeline : obj Pipeline) : call unit
| publish (pipeline : obj Pipeline) (name description : string)
    (version : attr_value) : call (obj PublishedPipeline).

Inductive outcome (T : Type) : Type :=
| Returns (v : T)
| Raises (e : exn).
Arguments Returns {T} v.
Arguments Raises {T} e.

(** The log of a run: every call that left the script with what came back,
    and a marker for each entry into a function of the module. *)
Inductive event : Type :=
| Called {T : Type} (c : call T) (o : outcome T)
| Entered (function : string).

Definition trace := list event.

(** The world outside the script: what a call answers after a given history. *)
Definition env : Type := forall T : Type, trace -> call T -> outcome T.

(** ** The monad of the script: a log, an exception or a value *)

Definition M (A : Type) : Type := env -> trace -> trace * result A.

Definition ret {A} (a : A) : M A := fun _ t => (t, Ok a).

Definition raise {A} (e : exn) : M A := fun _ t => (t, Err e).

Definition bind {A B} (m : M A) (f : A -> M B) : M B :=
  fun w t =>
    match m w t with
    | (t', Ok a) => f a w t'
    | (t', Err e) => (t', Err e)
    end.

Definition lift {A} (r : result A) : M A := fun _ t => (t, r).

Definition do_call {T} (c : call T) : M T :=
  fun w t =>
    match w T t c with
    | Returns v => ((t ++ [Called c (Returns v)])%list, Ok v)
    | Raises e => ((t ++ [Called c (Raises e)])%list, Err e)
    end.

Definition enter (function : string) : M unit :=
  fun _ t => ((t ++ [Entered function])%list, Ok tt).

(** [try: body / except: handler] with a bare [except]. *)
Definition try_except {A} (body : M A) (handler : M A) : M A :=
  fun w t =>
    match body w t with
    | (t', Ok a) => (t', Ok a)
    | (t', Err _) => handler w t'
    end.

Declare Scope py_scope.
Delimit Scope py_scope with py.
Notation "x <- m ;; k" := (bind m (fun x => k))
  (at level 100, m at next level, right associativity) : py_scope.
Notation "m ;; k" := (bind m (fun _ => k))
  (at level 100, right associativity) : py_scope.
Local Open Scope py_scope.

(** ** argparse

    The part of [argparse.ArgumentParser] the script uses, as in CPython 3.8 to 3.11:
    optional arguments that store one string, the automatic [-h/--help],
    exact option strings, [--opt=value], unambiguous prefixes of long options
    and the [--] separator.  The parser prints and calls [sys.exit] both for
    help and for a usage error; the model gives [SystemExit] for either. *)

Inductive action_kind : Type := Store | Help.

Record Action : Type := {
  option_strings : list string;
  dest : string;
  kind : action_kind;
  required : bool;
  default : attr_value
}.

Definition Parser := list Action.

(** An [argparse.Namespace]: the attributes in the order they were set. *)
Definition Namespace := list (string * attr_value).

Definition help_action : Action :=
  {| option_strings := ["-h"; "--help"]; dest := "help"; kind := Help;
     required := false; default := NoneValue |}.

(** [argparse.ArgumentParser()], with [add_help=True]. *)
Definition ArgumentParser : Parser := [help_action].

Fixpoint strip_dashes (s : string) : string :=
  match s with
  | String "-" rest => strip_dashes rest
  | _ => s
  end.

Fixpoint dashes_to_underscores (s : string) : string :=
  match s with
  | EmptyString => EmptyString
  | String c rest =>
      String (if Ascii.eqb c "-" then "_"%char else c) (dashes_to_underscores rest)
  end.

(** [parser.add_argument(flag, required=..., default=...)]. *)
Definition add_argument (p : Parser) (flag : string) (req : bool)
    (dflt : attr_value) : Parser :=
  (p ++ [{| option_strings := [flag];
            dest := dashes_to_underscores (strip_dashes flag);
            kind := Store; required := req; default := dflt |}])%list.

Definition has_option_string (s : string) (a : Action) : bool :=
  existsb (String.eqb s) (option_strings a).

Definition find_action (p : Parser) (s : string) : option Action :=
  find (has_option_string s) p.

(** [s.split('=', 1)] when [s] contains an equals sign. *)
Fixpoint split_eq (s : string) : option (string * string) :=
  match s with
  | EmptyString => None
  | String c rest =>
      if Ascii.eqb c "=" then Some (EmptyString, rest)
      else match split_eq rest with
           | Some (a, b) => Some (String c a, b)
           | None => None
           end
  end.

Definition starts_with (pre s : string) : bool := String.prefix pre s.

Definition option_pairs (p : Parser) : list (Action * string) :=
  flat_map (fun a => map (fun s => (a, s)) (option_strings a)) p.

(** [_get_option_tuples]: the options a string may abbreviate. *)
Definition get_option_tuples (p : Parser) (arg : string)
    : list (Action * option string) :=
  match arg with
  | String c0 (String c1 rest) =>
      if negb (Ascii.eqb c0 "-") then []
      else if Ascii.eqb c1 "-" then
        let '(option_prefix, explicit_arg) :=
          match split_eq arg with
          | Some (a, b) => (a, Some b)
          | None => (arg, None)
          end in
        flat_map (fun '(a, s) =>
                    if starts_with option_prefix s then [(a, explicit_arg)] else [])
                 (option_pairs p)
      else
        let short_option_prefix := String c0 (String c1 EmptyString) in
        flat_map (fun '(a, s) =>
                    if String.eqb s short_option_prefix then [(a, Some rest)]
                    else if starts_with arg s then [(a, None)] else [])
                 (option_pairs p)
  | _ => []
  end.

Definition is_digit (c : ascii) : bool :=
  let n := nat_of_ascii c in Nat.leb 48 n && Nat.leb n 57.

(** One or more digits up to the end of the string, or up to a final
    newline. *)
Fixpoint digits_to_end (s : string) : bool :=
  match s with
  | EmptyString => false
  | String c rest =>
      is_digit c &&
      (match rest with
       | EmptyString => true
       | String "010" EmptyString => true
       | _ => digits_to_end rest
       end)
  end.

Fixpoint digits_dot_digits (s : string) : bool :=
  match s with
  | EmptyString => false
  | String "." rest => digits_to_end rest
  | String c rest => is_digit c && digits_dot_digits rest
  end.

(** The parser's [_negative_number_matcher], with the ASCII digits. *)
Definition is_negative_number (s : string) : bool :=
  match s with
  | String "-" rest => digits_to_end rest || digits_dot_digits rest
  | _ => false
  end.

Fixpoint has_space (s : string) : bool :=
  match s with
  | EmptyString => false
  | String c rest => Ascii.eqb c " " || has_space rest
  end.

Inductive arg_class : Type :=
| Positional
| Optional (a : option Action) (explicit_arg : option string).

(** [_parse_optional]: how one argument string is read. *)
Definition parse_optional (p : Parser) (arg : string) : result arg_class :=
  match arg with
  | EmptyString => Ok Positional
  | String c rest =>
      if negb (Ascii.eqb c "-") then Ok Positional
      else
        match find_action p arg with
        | Some a => Ok (Optional (Some a) None)
        | None =>
            match rest with
            | EmptyString => Ok Positional
            | _ =>
                let exact :=
                  match split_eq arg with
                  | Some (opt, explicit_arg) =>
                      match find_action p opt with
                      | Some a => Some (Optional (Some a) (Some explicit_arg))
                      | None => None
                      end
                  | None => None
                  end in
                match exact with
                | Some cls => Ok cls
                | None =>
                    match get_option_tuples p arg with
                    | [(a, explicit_arg)] => Ok (Optional (Some a) explicit_arg)
                    | _ :: _ :: _ => Err SystemExit
                    | [] =>
                        if is_negative_number arg then Ok Positional
                        else if has_space arg then Ok Positional
                        else Ok (Optional None None)
                    end
                end
            end
        end
  end.

(** [_get_values] for one argument string: the first [--] is removed from
    the strings of the option, and no string is left when it was the only
    one. *)
Definition get_values (v : string) : attr_value :=
  if String.eqb v "--" then EmptyList else StrValue v.

Fixpoint set_attr (ns : Namespace) (name : string) (v : attr_value) : Namespace :=
  match ns with
  | [] => [(name, v)]
  | (k, x) :: rest =>
      if String.eqb k name then (k, v) :: rest else (k, x) :: set_attr rest name v
  end.

(** Reads the arguments from left to right.  No positional argument is
    declared, so a string that no option takes as its value, an option
    string that names no option and the [--] separator all end in
    [unrecognized arguments]; an option takes as its value the next string
    when that string is read as a positional one. *)
Fixpoint consume (p : Parser) (args : list string) (ns : Namespace)
    (seen : list string) : result (Namespace * list string) :=
  match args with
  | [] => Ok (ns, seen)
  | arg :: rest =>
      if String.eqb arg "--" then Err SystemExit
      else
        match parse_optional p arg with
        | Err e => Err e
        | Ok Positional => Err SystemExit
        | Ok (Optional None _) => Err SystemExit
        | Ok (Optional (Some a) explicit_arg) =>
            match kind a with
            | Help => Err SystemExit
            | Store =>
                match explicit_arg with
                | Some v => consume p rest (set_attr ns (dest a) (get_values v)) (dest a :: seen)
                | None =>
                    match rest with
                    | [] => Err SystemExit
                    | v :: rest' =>
                        if String.eqb v "--" then Err SystemExit
                        else
                          match parse_optional p v with
                          | Ok Positional =>
                              consume p rest' (set_attr ns (dest a) (get_values v))
                                (dest a :: seen)
                          | _ => Err SystemExit
                          end
                    end
                end
            end
        end
  end.

Definition initial_namespace (p : Parser) : Namespace :=
  flat_map (fun a => match kind a with
                     | Store => [(dest a, default a)]
                     | Help => []
                     end) p.

(** [parser.parse_args()] on [sys.argv[1:]]. *)
Definition parse_args (p : Parser) (argv : list string) : result Namespace :=
  match consume p argv (initial_namespace p) [] with
  | Err e => Err e
  | Ok (ns, seen) =>
      if forallb (fun a => negb (required a) || existsb (String.eqb (dest a)) seen) p
      then Ok ns
      else Err SystemExit
  end.

(** [args.name]. *)
Definition namespace_attr (ns : Namespace) (name : string) : result attr_value :=
  match assoc name ns with
  | Some v => Ok v
  | None => Err (AttributeError name)
  end.

(** ** Names visible in the module

    A function of the module resolves a name that is neither one of its
    parameters nor assigned in its body in the module's globals, then in the
    builtins.  [module_globals] lists what the file binds at its top level:
    the imports, the constant and the five functions. *)

Inductive binding : Type :=
| BModule (name : string)
| BImported (qualified : string)
| BConst (value : string)
| BFunction (name : string)
| BBuiltin (name : string).

Definition DATABRICKS_RUNTIME_VERSION : string := "6.2.x-scala2.11".

Definition module_globals : list (string * binding) :=
  [ ("__name__", BConst "__main__");
    ("argparse", BModule "argparse");
    ("base64", BModule "base64");
    ("hashlib", BModule "hashlib");
    ("databricks_client", BModule "databricks_client");
    ("adal", BModule "adal");
    ("Workspace", BImported "azureml.core.Workspace");
    ("Run", BImported "azureml.core.Run");
    ("Pipeline", BImported "azureml.pipeline.core.Pipeline");
    ("PipelineData", BImported "azureml.pipeline.core.PipelineData");
    ("DatabricksStep", BImported "azureml.pipeline.steps.DatabricksStep");
    ("DatabricksCompute", BImported "azureml.core.compute.DatabricksCompute");
    ("ComputeTarget", BImported "azureml.core.compute.ComputeTarget");
    ("Datastore", BImported "azureml.core.datastore.Datastore");
    ("DataReference", BImported "azureml.data.data_reference.DataReference");
    ("StorageManagementClient", BImported "azure.mgmt.storage.StorageManagementClient");
    ("ServicePrincipalAuthentication",
       BImported "azureml.core.authentication.ServicePrincipalAuthentication");
    ("DATABRICKS_RUNTIME_VERSION", BConst DATABRICKS_RUNTIME_VERSION);
    ("get_databricks_compute", BFunction "get_databricks_compute");
    ("create_databricks_compute", BFunction "create_databricks_compute");
    ("upload_notebook", BFunction "upload_notebook");
    ("get_instance_pool", BFunction "get_instance_pool");
    ("main", BFunction "main") ].

(** The functions, constants and exception classes of the [builtins] module. *)
Definition builtins : list string :=
  [ "abs"; "all"; "any"; "ascii"; "bin"; "bool"; "breakpoint"; "bytearray";
    "bytes"; "callable"; "chr"; "classmethod"; "compile"; "complex";
    "copyright"; "credits"; "delattr"; "dict"; "dir"; "divmod"; "enumerate";
    "eval"; "exec"; "exit"; "filter"; "float"; "format"; "frozenset";
    "getattr"; "globals"; "hasattr"; "hash"; "help"; "hex"; "id"; "input";
    "int"; "isinstance"; "issubclass"; "iter"; "len"; "license"; "list";
    "locals"; "map"; "max"; "memoryview"; "min"; "next"; "object"; "oct";
    "open"; "ord"; "pow"; "print"; "property"; "quit"; "range"; "repr";
    "reversed"; "round"; "set"; "setattr"; "slice"; "sorted"; "staticmethod";
    "str"; "sum"; "super"; "tuple"; "type"; "vars"; "zip"; "__import__";
    "None"; "True"; "False"; "Ellipsis"; "NotImplemented"; "__debug__";
    "BaseException"; "Exception"; "ArithmeticError"; "AssertionError";
    "AttributeError"; "BlockingIOError"; "BrokenPipeError"; "BufferError";
    "BytesWarning"; "ChildProcessError"; "ConnectionAbortedError";
    "ConnectionError"; "ConnectionRefusedError"; "ConnectionResetError";
    "DeprecationWarning"; "EOFError"; "EnvironmentError"; "FileExistsError";
    "FileNotFoundError"; "FloatingPointError"; "FutureWarning";
    "GeneratorExit"; "IOError"; "ImportError"; "ImportWarning";
    "IndentationError"; "IndexError"; "InterruptedError";
    "IsADirectoryError"; "KeyError"; "KeyboardInterrupt"; "LookupError";
    "MemoryError"; "ModuleNotFoundError"; "NameError"; "NotADirectoryError";
    "NotImplementedError"; "OSError"; "OverflowError";
    "PendingDeprecationWarning"; "PermissionError"; "ProcessLookupError";
    "RecursionError"; "ReferenceError"; "ResourceWarning"; "RuntimeError";
    "RuntimeWarning"; "StopAsyncIteration"; "StopIteration"; "SyntaxError";
    "SyntaxWarning"; "SystemError"; "SystemExit"; "TabError"; "TimeoutError";
    "TypeError"; "UnboundLocalError"; "UnicodeDecodeError";
    "UnicodeEncodeError"; "UnicodeError"; "UnicodeTranslateError";
    "UnicodeWarning"; "UserWarning"; "ValueError"; "Warning";
    "ZeroDivisionError" ].

(** The value of a global name, or [NameError]. *)
Definition load_global (name : string) : result binding :=
  match assoc name module_globals with
  | Some b => Ok b
  | None =>
      if existsb (String.eqb name) builtins then Ok (BBuiltin name)
      else Err (NameError name)
  end.

(** [b.attr] for an option of the command line: no module, class, function
    or string bound at the top level of the file has such an attribute. *)
Definition binding_attr (b : binding) (attr : string) : result attr_value :=
  Err (AttributeError attr).

(** ** The functions of the module *)

Definition dict_contains {A} (k : string) (d : list (string * A)) : bool :=
  match assoc k d with Some _ => true | None => false end.

Definition dict_getitem {A} (d : list (string * A)) (k : string) : result A :=
  match assoc k d with Some v => Ok v | None => Err (KeyError k) end.

(** Truth value of an SDK object: its class defines neither [__bool__] nor
    [__len__]. *)
Definition object_truthy {A} (o : A) : bool := true.

(** Lines 19-29.  The message of the [ValueError] names the target by its
    identifier. *)
Definition get_databricks_compute (workspace : Workspace) (compute_name : string)
    : M (option ComputeTarget) :=
  enter "get_databricks_compute" ;;
  if negb (dict_contains compute_name (compute_targets workspace)) then ret None
  else
    compute_target <- lift (dict_getitem (compute_targets workspace) compute_name) ;;
    if object_truthy compute_target
       && String.eqb (compute_class compute_target) "DatabricksCompute"
    then ret (Some compute_target)
    else raise (ValueError ("Compute target " ++ compute_id compute_target
                              ++ " is of different type")).

(** Lines 32-48.  [args] is neither a parameter of the function nor assigned
    in its body, so it is read as a global. *)
Definition create_databricks_compute (workspace : Workspace) (compute_name : string)
    (access_token : json) : M ComputeTarget :=
  enter "create_databricks_compute" ;;
  args <- lift (load_global "args") ;;
  workspace_name <- lift (binding_attr args "databricks_workspace_name") ;;
  compute_config <- do_call (attach_configuration (resource_group workspace)
                               workspace_name access_token) ;;
  compute_target <- do_call (ComputeTarget_attach workspace compute_name compute_config) ;;
  do_call (wait_for_completion compute_target) ;;
  ret compute_target.

(** Lines 51-88. *)
Definition upload_notebook (dbricks_client : obj DatabricksClient)
    (notebook_folder notebook_dir notebook_name : string) : M string :=
  enter "upload_notebook" ;;
  file_content <- do_call (read_text_file (notebook_dir ++ "/" ++ notebook_name ++ ".py")) ;;
  let notebook_content := encode_utf8 file_content in
  let content_b64 := b64encode notebook_content in
  let notebook_checksum := hexdigest (sha1 notebook_content) in
  let notebook_subfolder := notebook_folder ++ "/" ++ notebook_checksum in
  let notebook_path := notebook_subfolder ++ "/" ++ notebook_name in
  do_call (client_post dbricks_client "workspace/mkdirs"
             (JObj [("path", JStr notebook_subfolder)])) ;;
  do_call (client_post dbricks_client "workspace/import"
             (JObj [("content", JStr content_b64);
                    ("path", JStr notebook_path);
                    ("overwrite", JBool true);
                    ("language", JStr "PYTHON");
                    ("format", JStr "SOURCE")])) ;;
  ret notebook_path.

(** The loop of lines 103-105 over the items of [response['instance_pools']]. *)
Fixpoint find_pool (pools : list json) (pool_name : string) : result json :=
  match pools with
  | [] => Ok JNull
  | pool :: rest =>
      rbind (py_getitem pool "instance_pool_name") (fun name =>
        if py_eq_str name pool_name then py_getitem pool "instance_pool_id"
        else find_pool rest pool_name)
  end.

(** Lines 91-106. *)
Definition get_instance_pool (dbricks_client : obj DatabricksClient)
    (pool_name : string) : M json :=
  enter "get_instance_pool" ;;
  response <- do_call (client_get dbricks_client "instance-pools/list") ;;
  present <- lift (py_contains "instance_pools" response) ;;
  if (present : bool) then
    pools <- lift (py_getitem response "instance_pools") ;;
    items <- lift (py_iter pools) ;;
    lift (find_pool items pool_name)
  else ret JNull.

(** [s + v] for a [str] [s] and an attribute of the command line. *)
Definition str_add (s : string) (v : attr_value) : result string :=
  match v with
  | StrValue x => Ok (s ++ x)
  | NoneValue => Err (TypeError "can only concatenate str (not NoneType) to str")
  | EmptyList => Err (TypeError "can only concatenate str (not list) to str")
  end.

(** Lines 113-124. *)
Definition main_parser : Parser :=
  let parser := ArgumentParser in
  let parser := add_argument parser "--databricks_workspace_name" true NoneValue in
  let parser := add_argument parser "--build_id" false (StrValue "local") in
  parser.

(** Lines 127-145: the workspace of the current run, or the one of the local
    configuration when there is no run. *)
Definition main_workspace : M Workspace :=
  aml_run <- try_except (run <- do_call Run_get_context ;; ret (Some run)) (ret None) ;;
  match aml_run with
  | Some run =>
      let run_ws := experiment_workspace run in
      vault <- do_call (get_default_keyvault run_ws) ;;
      tenant_id <- do_call (get_secret vault "TenantId") ;;
      client_id <- do_call (get_secret vault "ClientId") ;;
      client_secret <- do_call (get_secret vault "ClientSecret") ;;
      auth <- do_call (new_ServicePrincipalAuthentication tenant_id client_id client_secret) ;;
      do_call (new_Workspace (subscription_id run_ws) (resource_group run_ws)
                 (ws_name run_ws) auth)
  | None => do_call Workspace_from_config
  end.

(** Lines 150-169: the Databricks client, authenticated through Azure AD. *)
Definition main_credentials (args : Namespace) (aml_workspace : Workspace)
    : M (obj DatabricksClient) :=
  let dbricks_region := location aml_workspace in
  let dbricks_api := "https://" ++ dbricks_region ++ ".azuredatabricks.net/api/2.0" in
  vault <- do_call (get_default_keyvault aml_workspace) ;;
  let authority_host_uri := "https://login.microsoftonline.com" in
  tenant <- do_call (get_secret vault "TenantId") ;;
  let authority_uri := authority_host_uri ++ "/" ++ tenant in
  context <- do_call (new_AuthenticationContext authority_uri) ;;
  client_id <- do_call (get_secret vault "ClientId") ;;
  client_secret <- do_call (get_secret vault "ClientSecret") ;;
  let token_callback :=
    {| cb_context := context; cb_client_id := client_id;
       cb_client_secret := client_secret |} in
  dbricks_client <- do_call (databricks_client_create dbricks_api) ;;
  workspace_name <- lift (namespace_attr args "databricks_workspace_name") ;;
  do_call (auth_azuread dbricks_client (resource_group aml_workspace) workspace_name
             (subscription_id aml_workspace) token_callback) ;;
  ret dbricks_client.

(** Lines 171-188: the compute target named [databricks]. *)
Definition main_compute (args : Namespace) (aml_workspace : Workspace)
    (dbricks_client : obj DatabricksClient) : M ComputeTarget :=
  let dbricks_compute_name := "databricks" in
  dbricks_compute <- get_databricks_compute aml_workspace dbricks_compute_name ;;
  match dbricks_compute with
  | None =>
      build_id <- lift (namespace_attr args "build_id") ;;
      comment <- lift (str_add "Azure ML Token generated by Build " build_id) ;;
      response <- do_call (client_post dbricks_client "token/create"
                             (JObj [("comment", JStr comment)])) ;;
      pat_token <- lift (py_getitem response "token_value") ;;
      create_databricks_compute aml_workspace dbricks_compute_name pat_token
  | Some existing => ret existing
  end.

(** Lines 193-208: the instance pool named [azureml_training]. *)
Definition main_instance_pool (dbricks_client : obj DatabricksClient) : M json :=
  let pool_name := "azureml_training" in
  instance_pool_id <- get_instance_pool dbricks_client pool_name ;;
  if negb (truthy instance_pool_id) then
    do_call (client_post dbricks_client "instance-pools/create"
               (JObj [("instance_pool_name", JStr pool_name);
                      ("node_type_id", JStr "Standard_D3_v2");
                      ("idle_instance_autotermination_minutes", JNum 10);
                      ("preloaded_spark_versions",
                         JArr [JStr DATABRICKS_RUNTIME_VERSION])])) ;;
    get_instance_pool dbricks_client pool_name
  else ret instance_pool_id.

(** Lines 210-241: the feature engineering step and its notebook. *)
Definition main_step (aml_workspace : Workspace) (dbricks_client : obj DatabricksClient)
    (dbricks_compute : ComputeTarget) (pool_id : json) : M (obj DatabricksStep) :=
  let notebook_folder := "/Shared/AzureMLDeployed" in
  workspace_datastore <- do_call (new_Datastore aml_workspace "workspaceblobstore") ;;
  training_datastore <- do_call (new_Datastore aml_workspace "trainingdata") ;;
  training_data_input <- do_call (new_DataReference training_datastore "/" "training") ;;
  feature_eng_output <- do_call (new_PipelineData "feature_engineered" workspace_datastore) ;;
  path <- upload_notebook dbricks_client notebook_folder "code/prepare"
            "feature_engineering" ;;
  do_call (new_DatabricksStep
             {| step_name := "FeatureEngineering";
                inputs := [training_data_input];
                outputs := [feature_eng_output];
                spark_version := DATABRICKS_RUNTIME_VERSION;
                instance_pool_id := pool_id;
                num_workers := 3;
                notebook_path := path;
                run_name := "FeatureEngineering";
                compute_target := dbricks_compute;
                allow_reuse := true |}).

(** Lines 247-258: the pipeline and its publication. *)
Definition main_publish (args : Namespace) (aml_workspace : Workspace)
    (training_dataprep_step : obj DatabricksStep) : M unit :=
  let steps := [training_dataprep_step] in
  ml_pipeline <- do_call (new_Pipeline aml_workspace steps) ;;
  do_call (validate ml_pipeline) ;;
  build_id <- lift (namespace_attr args "build_id") ;;
  published_pipeline <- do_call (publish ml_pipeline "Feature Engineering"
                                   "Feature engineering pipeline" build_id) ;;
  ret tt.

(** Lines 109-258, on the command line [argv] (without the program name).
    The [print] statements write to the standard output, which is not part
    of the log. *)
Definition main (argv : list string) : M unit :=
  args <- lift (parse_args main_parser argv) ;;
  aml_workspace <- main_workspace ;;
  dbricks_client <- main_credentials args aml_workspace ;;
  dbricks_compute <- main_compute args aml_workspace dbricks_client ;;
  pool_id <- main_instance_pool dbricks_client ;;
  training_dataprep_step <- main_step aml_workspace dbricks_client dbricks_compute pool_id ;;
  main_publish args aml_workspace training_dataprep_step.

(** ** Reading the log *)

Definition run {A} (m : M A) (w : env) : trace * result A := m w [].

Definition is_post (endpoint : string) (e : event) : bool :=
  match e with
  | Called (client_post _ ep _) _ => String.eqb ep endpoint
  | _ => false
  end.

Definition is_get (endpoint : string) (e : event) : bool :=
  match e with
  | Called (client_get _ ep) _ => String.eqb ep endpoint
  | _ => false
  end.

Definition is_attach (e : event) : bool :=
  match e with
  | Called (ComputeTarget_attach _ _ _) _ => true
  | _ => false
  end.

Definition is_publish (e : event) : bool :=
  match e with
  | Called (publish _ _ _ _) _ => true
  | _ => false
  end.

Definition is_entered (function : string) (e : event) : bool :=
  match e with
  | Entered f => String.eqb f function
  | _ => false
  end.

Definition is_get_context (e : event) : bool :=
  match e with
  | Called Run_get_context _ => true
  | _ => false
  end.

(** The exception an event ended with, if any. *)
Definition raised (e : event) : option exn :=
  match e with
  | Called _ (Raises x) => Some x
  | _ => None
  end.

Definition count (p : event -> bool) (t : trace) : nat := length (filter p t).

(** ** A family of environments

    A world in which every service answers; its parameters are what the
    script branches on. *)

Record world : Type := {
  in_run : bool;
  the_workspace : Workspace;
  pools_before : json;
  pools_after : json;
  token_response : json;
  notebook_source : string
}.

Definition pool_created (t : trace) : bool :=
  existsb (is_post "instance-pools/create") t.

Definition world_env (x : world) : env :=
  fun T t c =>
    match c in call T return outcome T with
    | Run_get_context =>
        if in_run x then Returns {| experiment_workspace := the_workspace x |}
        else Raises (OtherError "RunEnvironmentException" "not in a run")
    | get_default_keyvault _ => Returns {| handle := 1 |}
    | get_secret _ name => Returns ("secret-" ++ name)
    | new_ServicePrincipalAuthentication _ _ _ => Returns {| handle := 2 |}
    | new_Workspace _ _ _ _ => Returns (the_workspace x)
    | Workspace_from_config => Returns (the_workspace x)
    | new_AuthenticationContext _ => Returns {| handle := 3 |}
    | databricks_client_create _ => Returns {| handle := 4 |}
    | auth_azuread _ _ _ _ _ => Returns tt
    | client_post _ ep _ =>
        if String.eqb ep "token/create" then Returns (token_response x)
        else Returns (JObj [])
    | client_get _ ep =>
        if String.eqb ep "instance-pools/list" then
          Returns (if pool_created t then pools_after x else pools_before x)
        else Returns (JObj [])
    | attach_configuration _ _ _ => Returns {| handle := 5 |}
    | ComputeTarget_attach _ name _ =>
        Returns {| compute_class := "DatabricksCompute"; compute_id := name |}
    | wait_for_completion _ => Returns tt
    | read_text_file _ => Returns (notebook_source x)
    | new_Datastore _ _ => Returns {| handle := 6 |}
    | new_DataReference _ _ _ => Returns {| handle := 7 |}
    | new_PipelineData _ _ => Returns {| handle := 8 |}
    | new_DatabricksStep _ => Returns {| handle := 9 |}
    | new_Pipeline _ _ => Returns {| handle := 10 |}
    | validate _ => Returns tt
    | publish _ _ _ _ => Returns {| handle := 11 |}
    end.

Definition databricks_target : ComputeTarget :=
  {| compute_class := "DatabricksCompute"; compute_id := "databricks" |}.

Definition workspace_with (targets : list (string * ComputeTarget)) : Workspace :=
  {| ws_name := "aml"; subscription_id := "sub"; resource_group := "rg";
     location := "westeurope"; compute_targets := targets |}.

Definition pool_listing (name id : string) : json :=
  JObj [("instance_pools",
         JArr [JObj [("instance_pool_name", JStr name);
                     ("instance_pool_id", JStr id)]])].

(** ** The shape of a run

    An event without its arguments and answer. *)

Inductive op : Type :=
| ORunGetContext | OKeyvault | OSecret | OServicePrincipal | ONewWorkspace
| OFromConfig | OAdalContext | OClientCreate | OAuthAzureAD
| OEnterGetCompute | OTokenCreate | OEnterCreateCompute | OAttachConfiguration
| OAttach | OWait
| OEnterGetPool | OPoolList | OPoolCreate
| ODatastore | ODataReference | OPipelineData
| OEnterUpload | OReadFile | OMkdirs | OImport
| ONewStep
| ONewPipeline | OValidate | OPublish
| OOther.

Definition op_of (e : event) : op :=
  match e with
  | Entered f =>
      if String.eqb f "get_databricks_compute" then OEnterGetCompute
      else if String.eqb f "create_databricks_compute" then OEnterCreateCompute
      else if String.eqb f "get_instance_pool" then OEnterGetPool
      else if String.eqb f "upload_notebook" then OEnterUpload
      else OOther
  | Called c _ =>
      match c with
      | Run_get_context => ORunGetContext
      | get_default_keyvault _ => OKeyvault
      | get_secret _ _ => OSecret
      | new_ServicePrincipalAuthentication _ _ _ => OServicePrincipal
      | new_Workspace _ _ _ _ => ONewWorkspace
      | Workspace_from_config => OFromConfig
      | new_AuthenticationContext _ => OAdalContext
      | databricks_client_create _ => OClientCreate
      | auth_azuread _ _ _ _ _ => OAuthAzureAD
      | client_post _ ep _ =>
          if String.eqb ep "token/create" then OTokenCreate
          else if String.eqb ep "instance-pools/create" then OPoolCreate
          else if String.eqb ep "workspace/mkdirs" then OMkdirs
          else if String.eqb ep "workspace/import" then OImport
          else OOther
      | client_get _ ep =>
          if String.eqb ep "instance-pools/list" then OPoolList else OOther
      | attach_configuration _ _ _ => OAttachConfiguration
      | ComputeTarget_attach _ _ _ => OAttach
      | wait_for_completion _ => OWait
      | read_text_file _ => OReadFile
      | new_Datastore _ _ => ODatastore
      | new_DataReference _ _ _ => ODataReference
      | new_PipelineData _ _ => OPipelineData
      | new_DatabricksStep _ => ONewStep
      | new_Pipeline _ _ => ONewPipeline
      | validate _ => OValidate
      | publish _ _ _ _ => OPublish
      end
  end.

Definition op_eqb (a b : op) : bool :=
  match a, b with
  | ORunGetContext, ORunGetContext | OKeyvault, OKeyvault | OSecret, OSecret
  | OServicePrincipal, OServicePrincipal | ONewWorkspace, ONewWorkspace
  | OFromConfig, OFromConfig | OAdalContext, OAdalContext
  | OClientCreate, OClientCreate | OAuthAzureAD, OAuthAzureAD
  | OEnterGetCompute, OEnterGetCompute | OTokenCreate, OTokenCreate
  | OEnterCreateCompute, OEnterCreateCompute
  | OAttachConfiguration, OAttachConfiguration | OAttach, OAttach | OWait, OWait
  | OEnterGetPool, OEnterGetPool | OPoolList, OPoolList | OPoolCreate, OPoolCreate
  | ODatastore, ODatastore | ODataReference, ODataReference
  | OPipelineData, OPipelineData | OEnterUpload, OEnterUpload
  | OReadFile, OReadFile | OMkdirs, OMkdirs | OImport, OImport
  | ONewStep, ONewStep | ONewPipeline, ONewPipeline | OValidate, OValidate
  | OPublish, OPublish | OOther, OOther => true
  | _, _ => false
  end.

Fixpoint ops_eqb (a b : list op) : bool :=
  match a, b with
  | [], [] => true
  | x :: a', y :: b' => op_eqb x y && ops_eqb a' b'
  | _, _ => false
  end.

(** How a run ended. *)
Inductive ending : Type :=
| Completed
| FailedNameErrorArgs
| Failed.

Definition ending_of {A} (r : result A) : ending :=
  match r with
  | Ok _ => Completed
  | Err (NameError name) => if String.eqb name "args" then FailedNameErrorArgs else Failed
  | Err _ => Failed
  end.

Definition ending_eqb (a b : ending) : bool :=
  match a, b with
  | Completed, Completed | FailedNameErrorArgs, FailedNameErrorArgs
  | Failed, Failed => true
  | _, _ => false
  end.

(** The operations of [main] along its branches: with or without a current
    run, with the compute target present or not, with the pool found at
    once or created. *)

Definition ops_workspace (in_a_run : bool) : list op :=
  if in_a_run then
    [ORunGetContext; OKeyvault; OSecret; OSecret; OSecret; OServicePrincipal;
     ONewWorkspace]
  else [ORunGetContext; OFromConfig].

Definition ops_credentials : list op :=
  [OKeyvault; OSecret; OAdalContext; OSecret; OSecret; OClientCreate; OAuthAzureAD].

Definition ops_pool (found : bool) : list op :=
  if found then [OEnterGetPool; OPoolList]
  else [OEnterGetPool; OPoolList; OPoolCreate; OEnterGetPool; OPoolList].

Definition ops_step : list op :=
  [ODatastore; ODatastore; ODataReference; OPipelineData;
   OEnterUpload; OReadFile; OMkdirs; OImport; ONewStep].

Definition ops_publish : list op := [ONewPipeline; OValidate; OPublish].

Definition complete_path (in_a_run found : bool) : list op :=
  (ops_workspace in_a_run ++ ops_credentials ++ [OEnterGetCompute]
     ++ ops_pool found ++ ops_step ++ ops_publish)%list.

Definition create_path (in_a_run : bool) : list op :=
  (ops_workspace in_a_run ++ ops_credentials
     ++ [OEnterGetCompute; OTokenCreate; OEnterCreateCompute])%list.

Definition complete_paths : list (list op) :=
  [complete_path true true; complete_path true false;
   complete_path false true; complete_path false false].

Definition create_paths : list (list op) := [create_path true; create_path false].

(** The prefixes of a path, the path itself included. *)
Fixpoint prefixes {A} (l : list A) : list (list A) :=
  match l with
  | [] => [[]]
  | x :: rest => [] :: map (cons x) (prefixes rest)
  end.

(** What a run of [main] can look like: a complete path that ended well,
    the whole of a create path, which ends with [NameError: args], or a
    prefix of a complete path or a proper prefix of a create path that ended
    with the exception of its last operation. *)
Definition failing_prefixes : list (list op) :=
  (flat_map prefixes complete_paths
   ++ flat_map (fun p => prefixes (removelast p)) create_paths)%list.

Definition possible_runs : list (list op * ending) :=
  (map (fun p => (p, Completed)) complete_paths
   ++ map (fun p => (p, FailedNameErrorArgs)) create_paths
   ++ map (fun p => (p, Failed)) failing_prefixes
   ++ map (fun p => (p, FailedNameErrorArgs)) failing_prefixes)%list.

Definition run_eqb (a b : list op * ending) : bool :=
  ops_eqb (fst a) (fst b) && ending_eqb (snd a) (snd b).

Definition possible (ops : list op) (e : ending) : bool :=
  existsb (run_eqb (ops, e)) possible_runs.

(** An exception that a call other than [Run.get_context] ended with is the
    exception the run ended with, and that call is the last event. *)
Fixpoint propagated {A} (t : trace) (r : result A) : Prop :=
  match t with
  | [] => True
  | ev :: rest =>
      match raised ev with
      | Some e =>
          if is_get_context ev then propagated rest r
          else rest = [] /\ r = Err e
      | None => propagated rest r
      end
  end.

Definition run_facts {A} (p : trace * result A) : Prop :=
  possible (map op_of (fst p)) (ending_of (snd p)) = true
  /\ propagated (fst p) (snd p).

(** ** The answer of [instance-pools/list]

    The Databricks API answers with an object whose [instance_pools], when
    there is one, is a list of objects that each have a name and an
    identifier. *)

Definition is_pool (pool : json) : bool :=
  match pool with
  | JObj fields =>
      dict_contains "instance_pool_name" fields
      && dict_contains "instance_pool_id" fields
  | _ => false
  end.

Definition conforms (response : json) : bool :=
  match response with
  | JObj fields =>
      match assoc "instance_pools" fields with
      | None => true
      | Some (JArr pools) => forallb is_pool pools
      | Some _ => false
      end
  | _ => false
  end.

(** The pools a response lists: none when it has no [instance_pools]. *)
Definition listed_pools (response : json) : list json :=
  match response with
  | JObj fields =>
      match assoc "instance_pools" fields with
      | Some (JArr pools) => pools
      | _ => []
      end
  | _ => []
  end.

Definition pool_named (pool_name : string) (pool : json) : bool :=
  match py_getitem pool "instance_pool_name" with
  | Ok v => py_eq_str v pool_name
  | Err _ => false
  end.

(** ** Counting and staging the operations of a run *)

Definition count_op (o : op) (ops : list op) : nat := length (filter (op_eqb o) ops).

Inductive stage : Type :=
| Authenticate | ResolveCompute | ResolvePool | UploadNotebook | DefineStep
| PublishPipeline.

(** The stage an operation belongs to.  The data stores, the data reference
    and the pipeline data that [main] creates between the pool and the
    upload are the inputs and outputs of the step, not one of the stages. *)
Definition stage_of_op (o : op) : option stage :=
  match o with
  | ORunGetContext | OKeyvault | OSecret | OServicePrincipal | ONewWorkspace
  | OFromConfig | OAdalContext | OClientCreate | OAuthAzureAD => Some Authenticate
  | OEnterGetCompute | OTokenCreate | OEnterCreateCompute | OAttachConfiguration
  | OAttach | OWait => Some ResolveCompute
  | OEnterGetPool | OPoolList | OPoolCreate => Some ResolvePool
  | OEnterUpload | OReadFile | OMkdirs | OImport => Some UploadNotebook
  | ONewStep => Some DefineStep
  | ONewPipeline | OValidate | OPublish => Some PublishPipeline
  | ODatastore | ODataReference | OPipelineData | OOther => None
  end.

Definition stage_eqb (a b : stage) : bool :=
  match a, b with
  | Authenticate, Authenticate | ResolveCompute, ResolveCompute
  | ResolvePool, ResolvePool | UploadNotebook, UploadNotebook
  | DefineStep, DefineStep | PublishPipeline, PublishPipeline => true
  | _, _ => false
  end.

(** Drops the repetitions of a stage that follow it at once. *)
Fixpoint compress (l : list stage) : list stage :=
  match l with
  | [] => []
  | x :: rest =>
      match rest with
      | y :: _ => if stage_eqb x y then compress rest else x :: compress rest
      | [] => [x]
      end
  end.

(** The stages of a log in the order in which it passes through them. *)
Definition stages (t : trace) : list stage :=
  compress (flat_map (fun e => match stage_of_op (op_of e) with
                               | Some s => [s]
                               | None => []
                               end) t).

Definition stages_of_ops (ops : list op) : list stage :=
  compress (flat_map (fun o => match stage_of_op o with
                               | Some s => [s]
                               | None => []
                               end) ops).

Fixpoint stages_eqb (a b : list stage) : bool :=
  match a, b with
  | [], [] => true
  | x :: a', y :: b' => stage_eqb x y && stages_eqb a' b'
  | _, _ => false
  end.

(** ** Requests and paths named in the statements *)

(** The body of the [instance-pools/create] request of [main]. *)
Definition pool_request : json :=
  JObj [("instance_pool_name", JStr "azureml_training");
        ("node_type_id", JStr "Standard_D3_v2");
        ("idle_instance_autotermination_minutes", JNum 10);
        ("preloaded_spark_versions", JArr [JStr DATABRICKS_RUNTIME_VERSION])].

(** The body of the [token/create] request of [main] for a build. *)
Definition token_request (build : string) : json :=
  JObj [("comment", JStr ("Azure ML Token generated by Build " ++ build))].

Definition step_without_pool (e : event) : bool :=
  match e with
  | Called (new_DatabricksStep a) _ =>
      match instance_pool_id a with JNull => true | _ => false end
  | _ => false
  end.

Definition source_file (notebook_dir notebook_name : string) : string :=
  notebook_dir ++ "/" ++ notebook_name ++ ".py".

(** The path under which a notebook of a given content is stored. *)
Definition content_path (notebook_folder content notebook_name : string) : string :=
  notebook_folder ++ "/" ++ hexdigest (sha1 (encode_utf8 content)) ++ "/" ++ notebook_name.

(** ** The command line of [main] *)

Definition workspace_flag : string := "--databricks_workspace_name".
Definition build_flag : string := "--build_id".

Definition workspace_action : Action :=
  {| option_strings := [workspace_flag]; dest := "databricks_workspace_name";
     kind := Store; required := true; default := NoneValue |}.

Definition build_action : Action :=
  {| option_strings := [build_flag]; dest := "build_id";
     kind := Store; required := false; default := StrValue "local" |}.









(** ** Worlds of the examples *)

Definition ready_workspace : Workspace :=
  workspace_with [("databricks", databricks_target)].

Definition ready_world : world :=
  {| in_run := false; the_workspace := ready_workspace;
     pools_before := JObj [];
     pools_after := pool_listing "azureml_training" "pool-1";
     token_response := JObj [("token_value", JStr "dapi-token")];
     notebook_source := "print(1)" |}.

Definition three_targets : Workspace :=
  workspace_with
    [("databricks", databricks_target);
     ("cpu-cluster", {| compute_class := "AmlCompute"; compute_id := "cpu-cluster" |})].

Definition quiet_world (ws : Workspace) : world :=
  {| in_run := false; the_workspace := ws;
     pools_before := JObj []; pools_after := JObj [];
     token_response := JObj [("token_value", JStr "dapi-token")];
     notebook_source := "print(1)" |}.

(** A world in which the pool is never listed, not even after its creation
    was requested. *)
Definition no_pool_world : world :=
  {| in_run := false; the_workspace := ready_workspace;
     pools_before := JObj []; pools_after := JObj [];
     token_response := JObj []; notebook_source := "print(1)" |}.

Definition two_pools : json :=
  JObj [("instance_pools",
         JArr [JObj [("instance_pool_name", JStr "other");
                     ("instance_pool_id", JStr "pool-0")];
               JObj [("instance_pool_id", JStr "pool-1");
                     ("state", JStr "ACTIVE");
                     ("instance_pool_name", JStr "azureml_training")];
               JObj [("instance_pool_name", JStr "azureml_training");
                     ("instance_pool_id", JStr "pool-2")]])].

Definition two_pools_world : world :=
  {| in_run := false; the_workspace := ready_workspace;
     pools_before := two_pools; pools_after := two_pools;
     token_response := JObj []; notebook_source := "print(1)" |}.

Definition failing_publish_env : env :=
  fun T t c =>
    match c in call T return outcome T with
    | publish _ _ _ _ => Raises (OtherError "HTTPError" "503")
    | c' => world_env ready_world _ t c'
    end.

(** ** Further vocabulary: what a log holds *)

(** A request to the Databricks REST client. *)
Definition is_request (e : event) : bool :=
  match e with
  | Called (client_post _ _ _) _ | Called (client_get _ _) _ => true
  | _ => false
  end.

(** A listing whose entries after the second are no pools. *)
Definition malformed_tail : json :=
  JObj [("instance_pools",
         JArr [JObj [("instance_pool_name", JStr "other");
                     ("instance_pool_id", JStr "pool-0")];
               JObj [("instance_pool_name", JStr "azureml_training");
                     ("instance_pool_id", JStr "pool-1")];
               JNum 7; JObj []])].

Definition listing_world (listing : json) : world :=
  {| in_run := false; the_workspace := ready_workspace;
     pools_before := listing; pools_after := listing;
     token_response := JObj []; notebook_source := "print(1)" |}.

(** A listing whose second entry has no name. *)
Definition nameless_pool : json :=
  JObj [("instance_pools",
         JArr [JObj [("instance_pool_name", JStr "other");
                     ("instance_pool_id", JStr "pool-0")];
               JObj [("instance_pool_id", JStr "pool-1")]])].

(** A listing whose pool of the name has no identifier. *)
Definition idless_pool : json :=
  JObj [("instance_pools",
         JArr [JObj [("instance_pool_name", JStr "azureml_training")]])].

(** The bodies posted to an endpoint, in order, each with its answer. *)
Definition posts (endpoint : string) (t : trace) : list (json * outcome json) :=
  flat_map (fun e => match e with
                     | Called (client_post _ ep body) o =>
                         if String.eqb ep endpoint then [(body, o)] else []
                     | _ => []
                     end) t.

(** A world in which the notebook file cannot be read. *)
Definition unreadable_env : env :=
  fun T t c =>
    match c in call T return outcome T with
    | read_text_file _ => Raises (OtherError "FileNotFoundError" "feature_engineering.py")
    | c' => world_env ready_world _ t c'
    end.

Definition is_auth (e : event) : bool :=
  match e with
  | Called (auth_azuread _ _ _ _ _) _ => true
  | _ => false
  end.

(** [auth_azuread] was called and returned. *)
Definition is_auth_done (e : event) : bool :=
  match e with
  | Called (auth_azuread _ _ _ _ _) (Returns _) => true
  | _ => false
  end.

Definition is_new_step (e : event) : bool :=
  match e with
  | Called (new_DatabricksStep _) _ => true
  | _ => false
  end.

Definition is_validate (e : event) : bool :=
  match e with
  | Called (validate _) _ => true
  | _ => false
  end.

Definition op_is_request (o : op) : bool :=
  match o with
  | OTokenCreate | OPoolCreate | OMkdirs | OImport | OPoolList | OOther => true
  | _ => false
  end.

(** No request stands before the first [auth_azuread] of a list of
    operations ([seen]: it was met already). *)
Fixpoint auth_first (seen : bool) (ops : list op) : bool :=
  match ops with
  | [] => true
  | o :: rest =>
      (negb (op_is_request o) || seen)
      && auth_first (seen || op_eqb OAuthAzureAD o) rest
  end.

Definition is_read_file (e : event) : bool :=
  match e with
  | Called (read_text_file _) _ => true
  | _ => false
  end.

Definition ready_argv : list string := ["--databricks_workspace_name"; "ws"].

(** ** Further vocabulary: the command line and the workspace *)

(** The prefixes of a string, from the empty one to the string itself. *)
Fixpoint string_prefixes (s : string) : list string :=
  match s with
  | EmptyString => [EmptyString]
  | String c rest => EmptyString :: map (String c) (string_prefixes rest)
  end.

(** An attribute of a namespace that is set, and not to [None]. *)
Definition is_set (ns : Namespace) (name : string) : Prop :=
  exists v, assoc name ns = Some v /\ v <> NoneValue.

(** A workspace whose target named [databricks] is of another class. *)
Definition other_class_workspace : Workspace :=
  workspace_with
    [("databricks", {| compute_class := "AmlCompute"; compute_id := "databricks" |})].


(** ** What a log holds: the answers that later calls are given *)

Definition answer {T} (o : outcome T) : option T :=
  match o with
  | Returns v => Some v
  | Raises _ => None
  end.

(** The first answer of a kind that a log holds, and the last one. *)
Fixpoint first_some {A} (f : event -> option A) (t : trace) : option A :=
  match t with
  | [] => None
  | e :: rest =>
      match f e with
      | Some a => Some a
      | None => first_some f rest
      end
  end.

Definition last_some {A} (f : event -> option A) (t : trace) : option A :=
  first_some f (rev t).

Definition returned_run (e : event) : option Run :=
  match e with
  | Called c o =>
      match c in call T return outcome T -> option Run with
      | Run_get_context => answer
      | _ => fun _ => None
      end o
  | Entered _ => None
  end.

(** The workspace that [Workspace(...)] or [Workspace.from_config()] gave. *)
Definition returned_workspace (e : event) : option Workspace :=
  match e with
  | Called c o =>
      match c in call T return outcome T -> option Workspace with
      | new_Workspace _ _ _ _ => answer
      | Workspace_from_config => answer
      | _ => fun _ => None
      end o
  | Entered _ => None
  end.

Definition returned_secret (name : string) (e : event) : option string :=
  match e with
  | Called c o =>
      match c in call T return outcome T -> option string with
      | get_secret _ n => if String.eqb n name then answer else fun _ => None
      | _ => fun _ => None
      end o
  | Entered _ => None
  end.

Definition returned_principal (e : event) : option (obj ServicePrincipalAuthentication) :=
  match e with
  | Called c o =>
      match c in call T return outcome T -> option (obj ServicePrincipalAuthentication) with
      | new_ServicePrincipalAuthentication _ _ _ => answer
      | _ => fun _ => None
      end o
  | Entered _ => None
  end.

Definition returned_context (e : event) : option (obj AuthenticationContext) :=
  match e with
  | Called c o =>
      match c in call T return outcome T -> option (obj AuthenticationContext) with
      | new_AuthenticationContext _ => answer
      | _ => fun _ => None
      end o
  | Entered _ => None
  end.

Definition returned_client (e : event) : option (obj DatabricksClient) :=
  match e with
  | Called c o =>
      match c in call T return outcome T -> option (obj DatabricksClient) with
      | databricks_client_create _ => answer
      | _ => fun _ => None
      end o
  | Entered _ => None
  end.

Definition returned_listing (e : event) : option json :=
  match e with
  | Called c o =>
      match c in call T return outcome T -> option json with
      | client_get _ ep =>
          if String.eqb ep "instance-pools/list" then answer else fun _ => None
      | _ => fun _ => None
      end o
  | Entered _ => None
  end.

Definition returned_datastore (name : string) (e : event) : option (obj Datastore) :=
  match e with
  | Called c o =>
      match c in call T return outcome T -> option (obj Datastore) with
      | new_Datastore _ n => if String.eqb n name then answer else fun _ => None
      | _ => fun _ => None
      end o
  | Entered _ => None
  end.

Definition returned_reference (e : event) : option (obj DataReference) :=
  match e with
  | Called c o =>
      match c in call T return outcome T -> option (obj DataReference) with
      | new_DataReference _ _ _ => answer
      | _ => fun _ => None
      end o
  | Entered _ => None
  end.

Definition returned_pipeline_data (e : event) : option (obj PipelineData) :=
  match e with
  | Called c o =>
      match c in call T return outcome T -> option (obj PipelineData) with
      | new_PipelineData _ _ => answer
      | _ => fun _ => None
      end o
  | Entered _ => None
  end.

(** The text that reading the notebook file gave. *)
Definition returned_text (e : event) : option string :=
  match e with
  | Called c o =>
      match c in call T return outcome T -> option string with
      | read_text_file _ => answer
      | _ => fun _ => None
      end o
  | Entered _ => None
  end.

Definition returned_step (e : event) : option (obj DatabricksStep) :=
  match e with
  | Called c o =>
      match c in call T return outcome T -> option (obj DatabricksStep) with
      | new_DatabricksStep _ => answer
      | _ => fun _ => None
      end o
  | Entered _ => None
  end.

Definition returned_pipeline (e : event) : option (obj Pipeline) :=
  match e with
  | Called c o =>
      match c in call T return outcome T -> option (obj Pipeline) with
      | new_Pipeline _ _ => answer
      | _ => fun _ => None
      end o
  | Entered _ => None
  end.

(** The body of the [workspace/import] request that was answered. *)
Definition answered_import (e : event) : option json :=
  match e with
  | Called c o =>
      match c in call T return outcome T -> option json with
      | client_post _ ep body =>
          if String.eqb ep "workspace/import"
          then fun o => match o with Returns _ => Some body | Raises _ => None end
          else fun _ => None
      | _ => fun _ => None
      end o
  | Entered _ => None
  end.

(** What lines 102-106 of [get_instance_pool] make of a response. *)
Definition pool_id_in (response : json) (pool_name : string) : result json :=
  rbind (py_contains "instance_pools" response) (fun present =>
    if (present : bool) then
      rbind (py_getitem response "instance_pools") (fun pools =>
        rbind (py_iter pools) (fun items => find_pool items pool_name))
    else Ok JNull).

(** An attribute of the command line as [parse_args] sets it. *)
Definition argument (argv : list string) (name : string) : result attr_value :=
  rbind (parse_args main_parser argv) (fun ns => namespace_attr ns name).

Definition api_of (ws : Workspace) : string :=
  "https://" ++ location ws ++ ".azuredatabricks.net/api/2.0".

Definition authority_of (tenant : string) : string :=
  "https://login.microsoftonline.com" ++ "/" ++ tenant.

Definition notebook_dir_of (content : string) : string :=
  "/Shared/AzureMLDeployed" ++ "/" ++ hexdigest (sha1 (encode_utf8 content)).

(** The import request of [upload_notebook] for a notebook of [main]. *)
Definition import_request (content : string) : json :=
  JObj [("content", JStr (b64encode (encode_utf8 content)));
        ("path", JStr (content_path "/Shared/AzureMLDeployed" content
                         "feature_engineering"));
        ("overwrite", JBool true);
        ("language", JStr "PYTHON");
        ("format", JStr "SOURCE")].

(** How the arguments of one call of a run of [main] on [argv] depend on the
    command line and on the answers that the log [t] of what came before the
    call holds. *)
Definition link (argv : list string) (t : trace) (e : event) : Prop :=
  match e with
  | Entered _ => True
  | Called c _ =>
      match c with
      | Run_get_context => True
      | get_default_keyvault ws =>
          Some ws = option_map experiment_workspace (first_some returned_run t)
          \/ Some ws = first_some returned_workspace t
      | get_secret _ name => In name ["TenantId"; "ClientId"; "ClientSecret"]
      | new_ServicePrincipalAuthentication tenant client secret =>
          Some tenant = first_some (returned_secret "TenantId") t
          /\ Some client = first_some (returned_secret "ClientId") t
          /\ Some secret = first_some (returned_secret "ClientSecret") t
      | new_Workspace subscription resource_grp name auth =>
          (exists r, first_some returned_run t = Some r
                     /\ subscription = subscription_id (experiment_workspace r)
                     /\ resource_grp = resource_group (experiment_workspace r)
                     /\ name = ws_name (experiment_workspace r))
          /\ Some auth = first_some returned_principal t
      | Workspace_from_config => first_some returned_run t = None
      | new_AuthenticationContext authority_uri =>
          Some authority_uri
          = option_map authority_of (last_some (returned_secret "TenantId") t)
      | databricks_client_create api =>
          Some api = option_map api_of (first_some returned_workspace t)
      | auth_azuread client resource_grp workspace_name subscription token_callback =>
          Some client = first_some returned_client t
          /\ Ok workspace_name = argument argv "databricks_workspace_name"
          /\ (exists ws, first_some returned_workspace t = Some ws
                         /\ resource_grp = resource_group ws
                         /\ subscription = subscription_id ws)
          /\ Some (cb_context token_callback) = first_some returned_context t
          /\ Some (cb_client_id token_callback)
             = last_some (returned_secret "ClientId") t
          /\ Some (cb_client_secret token_callback)
             = last_some (returned_secret "ClientSecret") t
      | client_post client endpoint body =>
          Some client = first_some returned_client t
          /\ (if String.eqb endpoint "token/create" then
                exists build, argument argv "build_id" = Ok (StrValue build)
                              /\ body = token_request build
              else if String.eqb endpoint "instance-pools/create" then
                body = pool_request
              else if String.eqb endpoint "workspace/mkdirs" then
                Some body
                = option_map (fun s => JObj [("path", JStr (notebook_dir_of s))])
                    (first_some returned_text t)
              else if String.eqb endpoint "workspace/import" then
                Some body = option_map import_request (first_some returned_text t)
              else False)
      | client_get client endpoint =>
          Some client = first_some returned_client t
          /\ endpoint = "instance-pools/list"
      | attach_configuration _ _ _ => False
      | ComputeTarget_attach _ _ _ => False
      | wait_for_completion _ => False
      | read_text_file path => path = source_file "code/prepare" "feature_engineering"
      | new_Datastore ws name =>
          Some ws = first_some returned_workspace t
          /\ (name = "workspaceblobstore" \/ name = "trainingdata")
      | new_DataReference datastore path_on_datastore data_reference_name =>
          Some datastore = first_some (returned_datastore "trainingdata") t
          /\ path_on_datastore = "/" /\ data_reference_name = "training"
      | new_PipelineData name datastore =>
          name = "feature_engineered"
          /\ Some datastore = first_some (returned_datastore "workspaceblobstore") t
      | new_DatabricksStep a =>
          step_name a = "FeatureEngineering" /\ run_name a = "FeatureEngineering"
          /\ spark_version a = DATABRICKS_RUNTIME_VERSION
          /\ num_workers a = 3%Z /\ allow_reuse a = true
          /\ map Some (inputs a) = [first_some returned_reference t]
          /\ map Some (outputs a) = [first_some returned_pipeline_data t]
          /\ Some (notebook_path a)
             = option_map (fun s => content_path "/Shared/AzureMLDeployed" s
                                      "feature_engineering")
                 (first_some returned_text t)
          /\ first_some answered_import t
             = option_map import_request (first_some returned_text t)
          /\ Some (Ok (instance_pool_id a))
             = option_map (fun r => pool_id_in r "azureml_training")
                 (last_some returned_listing t)
          /\ Some (Ok (compute_target a))
             = option_map (fun ws => dict_getitem (compute_targets ws) "databricks")
                 (first_some returned_workspace t)
          /\ compute_class (compute_target a) = "DatabricksCompute"
      | new_Pipeline ws steps =>
          Some ws = first_some returned_workspace t
          /\ map Some steps = [first_some returned_step t]
      | validate pipeline => Some pipeline = first_some returned_pipeline t
      | publish pipeline name description version =>
          Some pipeline = first_some returned_pipeline t
          /\ name = "Feature Engineering"
          /\ description = "Feature engineering pipeline"
          /\ Ok version = argument argv "build_id"
      end
  end.

(** Every call of a log is linked to what stands before it. *)
Definition linked (argv : list string) (t : trace) : Prop :=
  forall before e after, t = (before ++ e :: after)%list -> link argv before e.

(** The world of [ready_world], inside a run. *)
Definition run_world : world :=
  {| in_run := true; the_workspace := ready_workspace;
     pools_before := JObj [];
     pools_after := pool_listing "azureml_training" "pool-1";
     token_response := JObj [("token_value", JStr "dapi-token")];
     notebook_source := "print(1)" |}.

(** The log of the run of [main] in [ready_world], and in [run_world]. *)
Definition ready_log : trace := fst (run (main ready_argv) (world_env ready_world)).
Definition run_log : trace := fst (run (main ready_argv) (world_env run_world)).


(** ** Tactics: symbolic execution of the script

    [step] takes the next answer of the environment, or the next test of the
    script, and follows both ways. *)

Ltac step :=
  match goal with
  | |- context [match ?w ?T ?t ?c with Returns _ => _ | Raises _ => _ end] =>
      destruct (w T t c); cbv beta iota zeta
  | |- context [match ?x with _ => _ end] =>
      lazymatch x with
      | context [match _ with _ => _ end] => fail
      | _ => destruct x; cbv beta iota zeta
      end
  end.

Ltac unfold_script :=
  cbv beta iota delta
    [run main bind lift ret raise do_call enter try_except main_workspace
     main_credentials main_compute main_instance_pool main_step main_publish
     get_databricks_compute create_databricks_compute upload_notebook
     get_instance_pool];
  try change (load_global "args") with (@Err binding (NameError "args")).

Ltac possible_leaf :=
  first
    [ vm_compute; reflexivity
    | match goal with
      | |- context [ending_of (Err ?e)] =>
          destruct e; try (vm_compute; reflexivity);
          cbn [ending_of];
          match goal with
          | |- context [String.eqb ?n "args"] =>
              destruct (String.eqb n "args"); vm_compute; reflexivity
          end
      end ].

Ltac decide_strings :=
  repeat match goal with
         | |- context [String.eqb ?a ?b] => destruct (String.eqb_spec a b); subst
         end.

Ltac by_op :=
  let e := fresh "e" in
  intros e; destruct e as [T c o|f]; [destruct c|]; cbn;
  decide_strings; try reflexivity; try discriminate; try congruence.

(** Reads the hypotheses on the tests of the script into the goal. *)
Ltac use_tests :=
  repeat match goal with
         | H : ?x = _ |- context [?x] => rewrite H
         end.

Ltac link_event :=
  cbn [link first_some last_some rev app answer option_map
       returned_run returned_workspace returned_secret returned_principal
       returned_context returned_client returned_listing returned_datastore
       returned_reference returned_pipeline_data returned_text returned_step
       returned_pipeline answered_import String.eqb Ascii.eqb Bool.eqb
       step_name run_name spark_version num_workers allow_reuse inputs outputs
       notebook_path instance_pool_id compute_target map
       cb_context cb_client_id cb_client_secret In];
  unfold argument, pool_id_in, import_request, notebook_dir_of, content_path,
    source_file, api_of, authority_of, pool_request, token_request;
  repeat match goal with
         | |- context [hexdigest ?x] => generalize (hexdigest x); intro
         | |- context [b64encode ?x] => generalize (b64encode x); intro
         end;
  cbn [String.append];
  use_tests; cbn [rbind]; use_tests; cbn [rbind]; use_tests; cbn [rbind]; use_tests;
  repeat match goal with
         | |- _ /\ _ => split
         | |- True => exact I
         | |- exists _, _ => eexists
         end;
  first [ reflexivity
        | left; reflexivity
        | right; reflexivity
        | right; left; reflexivity
        | right; right; left; reflexivity
        | apply String.eqb_eq; assumption ].

(** * Proofs *)

(** ** Every run of [main] has one of the possible shapes *)

Lemma main_run_facts (argv : list string) (w : env) : run_facts (run (main argv) w).
Proof.
  unfold_script.
  repeat step.
  all: unfold run_facts; cbn [fst snd]; split.
  all: try possible_leaf.
  all: cbn; auto.
Qed.

(** ** [get_instance_pool] *)

Lemma find_pool_first_match (pool_name : string) (pools : list json) :
  forallb is_pool pools = true ->
  exists id,
    find_pool pools pool_name = Ok id
    /\ (find (pool_named pool_name) pools = None -> id = JNull)
    /\ (forall pool, find (pool_named pool_name) pools = Some pool ->
                     py_getitem pool "instance_pool_id" = Ok id).
Proof.
  induction pools as [|pool rest IH]; intros Hall.
  - exists JNull. repeat split; auto. discriminate.
  - cbn [forallb] in Hall. apply andb_true_iff in Hall as [Hpool Hrest].
    destruct pool as [| | | |?|fields]; try discriminate.
    cbn [is_pool] in Hpool. apply andb_true_iff in Hpool as [Hname Hid].
    unfold dict_contains in Hname, Hid.
    destruct (assoc "instance_pool_name" fields) as [name|] eqn:En; try discriminate.
    destruct (assoc "instance_pool_id" fields) as [id|] eqn:Ei; try discriminate.
    cbn [find_pool find]. unfold pool_named, py_getitem, rbind. rewrite En.
    destruct (py_eq_str name pool_name).
    + exists id. rewrite Ei. repeat split; try discriminate.
      intros pool [= <-]. now rewrite Ei.
    + destruct (IH Hrest) as (id' & Hfind & Hnone & Hsome).
      exists id'. auto.
Qed.

(** C6: on every answer of the API, [get_instance_pool] returns: [None]
    when the answer has no [instance_pools] or lists no pool of the given
    name, and otherwise the [instance_pool_id] of the first listed pool whose
    [instance_pool_name] is the given name. *)
Theorem get_instance_pool_first_match
    (dbricks_client : obj DatabricksClient) (pool_name : string)
    (w : env) (t : trace) (response : json) :
  w json (t ++ [Entered "get_instance_pool"])%list
    (client_get dbricks_client "instance-pools/list") = Returns response ->
  conforms response = true ->
  exists id,
    get_instance_pool dbricks_client pool_name w t
    = (((t ++ [Entered "get_instance_pool"])
          ++ [Called (client_get dbricks_client "instance-pools/list")
                (Returns response)])%list, Ok id)
    /\ (find (pool_named pool_name) (listed_pools response) = None -> id = JNull)
    /\ (forall pool,
          find (pool_named pool_name) (listed_pools response) = Some pool ->
          py_getitem pool "instance_pool_id" = Ok id).
Proof.
  intros Hw Hc.
  unfold get_instance_pool, bind, enter, do_call, lift, ret. rewrite Hw.
  destruct response as [| | | |?|fields]; try discriminate.
  cbn [conforms] in Hc. cbn [py_contains listed_pools py_getitem].
  destruct (assoc "instance_pools" fields) as [pools|] eqn:Ep.
  - destruct pools as [| | | |pools|?]; try discriminate.
    cbn [py_iter].
    destruct (find_pool_first_match pool_name pools Hc) as (id & Hfind & Hnone & Hsome).
    exists id. rewrite Hfind. auto.
  - exists JNull. repeat split; auto. discriminate.
Qed.

(** ** From the shape of a run to its events *)

Lemma op_eqb_eq (a b : op) : op_eqb a b = true -> a = b.
Proof. destruct a, b; (reflexivity || discriminate). Qed.

Lemma ops_eqb_eq (a b : list op) : ops_eqb a b = true -> a = b.
Proof.
  revert b; induction a as [|x a IH]; intros [|y b] H; try discriminate; auto.
  cbn in H. apply andb_true_iff in H as [Hx Hab].
  f_equal; auto using op_eqb_eq.
Qed.

Lemma ending_eqb_eq (a b : ending) : ending_eqb a b = true -> a = b.
Proof. destruct a, b; (reflexivity || discriminate). Qed.

(** A test that holds of every possible run holds of every run of [main]. *)
Lemma main_run_check (P : list op -> ending -> bool) :
  forallb (fun r => P (fst r) (snd r)) possible_runs = true ->
  forall argv w,
    P (map op_of (fst (run (main argv) w))) (ending_of (snd (run (main argv) w))) = true.
Proof.
  intros Hall argv w.
  destruct (main_run_facts argv w) as [Hp _].
  unfold possible in Hp. apply existsb_exists in Hp as ([ops e] & Hin & Heq).
  unfold run_eqb in Heq. cbn [fst snd] in Heq.
  apply andb_true_iff in Heq as [Ho He].
  apply ops_eqb_eq in Ho. apply ending_eqb_eq in He.
  rewrite Ho, He.
  rewrite forallb_forall in Hall. apply (Hall (ops, e) Hin).
Qed.

Lemma count_by_op (p : event -> bool) (o : op) (t : trace) :
  (forall e, p e = op_eqb o (op_of e)) -> count p t = count_op o (map op_of t).
Proof.
  intros H. unfold count, count_op.
  induction t as [|e t IH]; cbn; auto.
  rewrite H. destruct (op_eqb o (op_of e)); cbn; auto.
Qed.

Lemma existsb_by_op (p : event -> bool) (o : op) (t : trace) :
  (forall e, p e = op_eqb o (op_of e)) ->
  existsb p t = existsb (op_eqb o) (map op_of t).
Proof.
  intros H. induction t as [|e t IH]; cbn; auto. now rewrite H, IH.
Qed.

Lemma is_entered_create_op e :
  is_entered "create_databricks_compute" e = op_eqb OEnterCreateCompute (op_of e).
Proof. revert e. by_op. Qed.

Lemma is_attach_op e : is_attach e = op_eqb OAttach (op_of e).
Proof. revert e. by_op. Qed.

Lemma is_publish_op e : is_publish e = op_eqb OPublish (op_of e).
Proof. revert e. by_op. Qed.

Lemma is_post_token_op e : is_post "token/create" e = op_eqb OTokenCreate (op_of e).
Proof. revert e. by_op. Qed.

Lemma is_post_pool_op e : is_post "instance-pools/create" e = op_eqb OPoolCreate (op_of e).
Proof. revert e. by_op. Qed.

Lemma is_post_mkdirs_op e : is_post "workspace/mkdirs" e = op_eqb OMkdirs (op_of e).
Proof. revert e. by_op. Qed.

Lemma is_post_import_op e : is_post "workspace/import" e = op_eqb OImport (op_of e).
Proof. revert e. by_op. Qed.

Lemma is_get_list_op e : is_get "instance-pools/list" e = op_eqb OPoolList (op_of e).
Proof. revert e. by_op. Qed.

Create HintDb ops.
#[local] Hint Resolve is_entered_create_op is_attach_op is_publish_op
  is_post_token_op is_post_pool_op is_post_mkdirs_op is_post_import_op
  is_get_list_op : ops.

Lemma ending_name_error {A} (r : result A) :
  ending_of r = FailedNameErrorArgs -> r = Err (NameError "args").
Proof.
  destruct r as [a|e]; try discriminate.
  destruct e; try discriminate. cbn.
  destruct (String.eqb_spec name "args"); try discriminate. now subst.
Qed.

(** ** [get_databricks_compute] and [create_databricks_compute] *)

(** C3: [get_databricks_compute] returns [None] when the name is not among
    the compute targets of the workspace, the target when it is there and is
    a [DatabricksCompute], and raises [ValueError] when the target there is
    of another class; it calls no service. *)
Theorem get_databricks_compute_cases
    (workspace : Workspace) (compute_name : string) (w : env) (t : trace) :
  fst (get_databricks_compute workspace compute_name w t)
  = (t ++ [Entered "get_databricks_compute"])%list
  /\ (assoc compute_name (compute_targets workspace) = None ->
      snd (get_databricks_compute workspace compute_name w t) = Ok None)
  /\ (forall target,
        assoc compute_name (compute_targets workspace) = Some target ->
        compute_class target = "DatabricksCompute" ->
        snd (get_databricks_compute workspace compute_name w t) = Ok (Some target))
  /\ (forall target,
        assoc compute_name (compute_targets workspace) = Some target ->
        compute_class target <> "DatabricksCompute" ->
        exists msg,
          snd (get_databricks_compute workspace compute_name w t)
          = Err (ValueError msg)).
Proof.
  unfold get_databricks_compute, bind, enter, lift, ret, raise,
    dict_contains, dict_getitem, object_truthy.
  destruct (assoc compute_name (compute_targets workspace)) as [target|];
    cbn [negb fst snd andb].
  - destruct (String.eqb_spec (compute_class target) "DatabricksCompute") as [Hc|Hc];
      cbn [fst snd]; repeat split; try discriminate.
    + intros target' [= <-] _. reflexivity.
    + intros target' [= <-] Hn. contradiction.
    + intros target' [= <-] Hc'. contradiction.
    + intros target' [= <-] _. eexists. reflexivity.
  - repeat split; discriminate.
Qed.

Lemma get_databricks_compute_cases_witness :
  snd (get_databricks_compute three_targets "gpu"
         (world_env (quiet_world three_targets)) []) = Ok None
  /\ snd (get_databricks_compute three_targets "databricks"
            (world_env (quiet_world three_targets)) [])
     = Ok (Some databricks_target)
  /\ exists msg,
       snd (get_databricks_compute three_targets "cpu-cluster"
              (world_env (quiet_world three_targets)) [])
       = Err (ValueError msg).
Proof.
  split; [|split].
  - apply (get_databricks_compute_cases three_targets "gpu"). reflexivity.
  - apply (get_databricks_compute_cases three_targets "databricks"); reflexivity.
  - destruct (get_databricks_compute_cases three_targets "cpu-cluster"
                (world_env (quiet_world three_targets)) []) as (_ & _ & _ & H).
    apply (H {| compute_class := "AmlCompute"; compute_id := "cpu-cluster" |}).
    + reflexivity.
    + discriminate.
Defined.

(** C2: a call of [create_databricks_compute] raises [NameError] for
    [args] before it reaches any service, whatever it is given; so when the
    workspace has no target named [databricks], lines 171-188 of [main] end
    with an exception, and no run of [main] that entered
    [create_databricks_compute] ends otherwise than with that [NameError],
    nor does any run attach a compute target. *)
Theorem create_databricks_compute_name_error :
  (forall workspace compute_name access_token w t,
      create_databricks_compute workspace compute_name access_token w t
      = ((t ++ [Entered "create_databricks_compute"])%list, Err (NameError "args")))
  /\ (forall args aml_workspace dbricks_client w t,
        dict_contains "databricks" (compute_targets aml_workspace) = false ->
        exists e, snd (main_compute args aml_workspace dbricks_client w t) = Err e)
  /\ (forall argv w,
        existsb (is_entered "create_databricks_compute") (fst (run (main argv) w)) = true ->
        snd (run (main argv) w) = Err (NameError "args"))
  /\ (forall argv w, count is_attach (fst (run (main argv) w)) = 0).
Proof.
  repeat split.
  - intros args aml_workspace dbricks_client w t Hmissing.
    unfold main_compute, get_databricks_compute, create_databricks_compute,
      bind, enter, lift, ret, do_call.
    rewrite Hmissing. cbn [negb].
    change (load_global "args") with (@Err binding (NameError "args")).
    repeat step; cbn [snd]; eexists; reflexivity.
  - intros argv w Hentered.
    apply ending_name_error.
    rewrite (existsb_by_op _ OEnterCreateCompute) in Hentered
      by apply is_entered_create_op.
    pose proof (main_run_check
      (fun ops e => negb (existsb (op_eqb OEnterCreateCompute) ops)
                    || ending_eqb e FailedNameErrorArgs)
      eq_refl argv w) as H.
    cbv beta in H. rewrite Hentered in H. cbn [negb orb] in H.
    now apply ending_eqb_eq.
  - intros argv w.
    rewrite (count_by_op _ OAttach) by apply is_attach_op.
    apply Nat.eqb_eq.
    exact (main_run_check (fun ops _ => Nat.eqb (count_op OAttach ops) 0)
             eq_refl argv w).
Qed.

Lemma create_databricks_compute_name_error_witness :
  dict_contains "databricks" (compute_targets (workspace_with [])) = false
  /\ snd (run (main ["--databricks_workspace_name"; "ws"])
            (world_env (quiet_world (workspace_with []))))
     = Err (NameError "args").
Proof.
  split; [reflexivity|].
  apply create_databricks_compute_name_error.
  vm_compute. reflexivity.
Defined.

(** ** The whole run *)

(** C9: in a run of [main], [token/create], [instance-pools/create],
    [workspace/mkdirs], [workspace/import], the attachment of the compute
    target (the call of [create_databricks_compute] as well as
    [ComputeTarget.attach]) and the publication of the pipeline are each
    requested at most once, and [instance-pools/list] at most twice. *)
Theorem main_no_retry (argv : list string) (w : env) :
  count (is_post "token/create") (fst (run (main argv) w)) <= 1
  /\ count (is_post "instance-pools/create") (fst (run (main argv) w)) <= 1
  /\ count (is_post "workspace/mkdirs") (fst (run (main argv) w)) <= 1
  /\ count (is_post "workspace/import") (fst (run (main argv) w)) <= 1
  /\ count (is_entered "create_databricks_compute") (fst (run (main argv) w)) <= 1
  /\ count is_attach (fst (run (main argv) w)) <= 1
  /\ count is_publish (fst (run (main argv) w)) <= 1
  /\ count (is_get "instance-pools/list") (fst (run (main argv) w)) <= 2.
Proof.
  rewrite (count_by_op (is_entered "create_databricks_compute") OEnterCreateCompute),
    (count_by_op (is_post "token/create") OTokenCreate),
    (count_by_op (is_post "instance-pools/create") OPoolCreate),
    (count_by_op (is_post "workspace/mkdirs") OMkdirs),
    (count_by_op (is_post "workspace/import") OImport),
    (count_by_op is_attach OAttach), (count_by_op is_publish OPublish),
    (count_by_op (is_get "instance-pools/list") OPoolList)
    by auto with ops.
  pose proof (main_run_check
    (fun ops _ =>
       Nat.leb (count_op OTokenCreate ops) 1 && Nat.leb (count_op OPoolCreate ops) 1
       && Nat.leb (count_op OMkdirs ops) 1 && Nat.leb (count_op OImport ops) 1
       && Nat.leb (count_op OEnterCreateCompute ops) 1
       && Nat.leb (count_op OAttach ops) 1 && Nat.leb (count_op OPublish ops) 1
       && Nat.leb (count_op OPoolList ops) 2)
    eq_refl argv w) as H.
  cbv beta in H.
  repeat (apply andb_true_iff in H; destruct H as [H ?]).
  repeat split; now apply Nat.leb_le.
Qed.

Lemma stages_eqb_eq (a b : list stage) : stages_eqb a b = true -> a = b.
Proof.
  revert b; induction a as [|x a IH]; intros [|y b] H; try discriminate; auto.
  cbn in H. apply andb_true_iff in H as [Hx Hab].
  f_equal; auto. destruct x, y; (reflexivity || discriminate).
Qed.

Lemma stages_by_op (t : trace) : stages t = stages_of_ops (map op_of t).
Proof.
  unfold stages, stages_of_ops. f_equal.
  induction t as [|e t IH]; cbn; auto. now rewrite IH.
Qed.

(** C8: a run of [main] that completes passes through the stages in this
    order: authentication (workspace, key vault secrets, Azure AD set-up of
    the client), the compute target, the instance pool, the upload of the
    notebook, the definition of the step, the publication of the pipeline. *)
Theorem main_stage_order (argv : list string) (w : env) :
  snd (run (main argv) w) = Ok tt ->
  stages (fst (run (main argv) w))
  = [Authenticate; ResolveCompute; ResolvePool; UploadNotebook; DefineStep;
     PublishPipeline].
Proof.
  intros Hok. rewrite stages_by_op.
  pose proof (main_run_check
    (fun ops e =>
       match e with
       | Completed =>
           stages_eqb (stages_of_ops ops)
             [Authenticate; ResolveCompute; ResolvePool; UploadNotebook;
              DefineStep; PublishPipeline]
       | _ => true
       end) eq_refl argv w) as H.
  cbv beta in H. rewrite Hok in H. cbn [ending_of] in H.
  now apply stages_eqb_eq.
Qed.

Lemma main_stage_order_witness :
  snd (run (main ["--databricks_workspace_name"; "ws"]) (world_env ready_world)) = Ok tt
  /\ stages (fst (run (main ["--databricks_workspace_name"; "ws"]) (world_env ready_world)))
     = [Authenticate; ResolveCompute; ResolvePool; UploadNotebook; DefineStep;
        PublishPipeline].
Proof.
  split; [vm_compute; reflexivity|].
  apply main_stage_order. vm_compute. reflexivity.
Defined.

(** ** Exceptions *)

Lemma propagated_split {A} (t : trace) (r : result A) :
  propagated t r ->
  forall before ev after e,
    t = (before ++ ev :: after)%list ->
    raised ev = Some e -> is_get_context ev = false ->
    after = [] /\ r = Err e.
Proof.
  intros Hp before. revert t Hp.
  induction before as [|x before IH]; intros t Hp ev after e -> Hr Hg.
  - cbn in Hp. now rewrite Hr, Hg in Hp.
  - cbn [app propagated] in Hp.
    destruct (raised x) as [e'|] eqn:Ex.
    + destruct (is_get_context x).
      * eapply IH; eauto.
      * destruct Hp as [Hnil _]. destruct before; discriminate.
    + eapply IH; eauto.
Qed.

(** C4 (counterexample): outside a run, [Run.get_context] raises, the
    exception is caught, and [main] goes on to its end. *)
Lemma get_context_exception_caught :
  raised (hd (Entered "") (fst (run (main ["--databricks_workspace_name"; "ws"])
                                  (world_env ready_world))))
  = Some (OtherError "RunEnvironmentException" "not in a run")
  /\ is_get_context (hd (Entered "") (fst (run (main ["--databricks_workspace_name"; "ws"])
                                            (world_env ready_world)))) = true
  /\ snd (run (main ["--databricks_workspace_name"; "ws"]) (world_env ready_world)) = Ok tt.
Proof. vm_compute. auto. Qed.

(** C4 (amended): the exception of [Run.get_context] is caught, and the
    run goes on with [Workspace.from_config()]; the exception any other call
    of [main] ends with is not caught: that call is the last event of the
    run and the run ends with that exception. *)
Theorem main_exceptions_propagate :
  (forall (w : env) (t : trace) (e : exn),
      w Run t Run_get_context = Raises e ->
      main_workspace w t
      = do_call Workspace_from_config w
          (t ++ [Called Run_get_context (Raises e)])%list)
  /\ (forall (argv : list string) (w : env) (before : trace) (ev : event)
             (after : trace) (e : exn),
        fst (run (main argv) w) = (before ++ ev :: after)%list ->
        raised ev = Some e -> is_get_context ev = false ->
        after = [] /\ snd (run (main argv) w) = Err e).
Proof.
  split.
  - intros w t e H.
    unfold main_workspace, bind, try_except, do_call, ret. now rewrite H.
  - intros argv w before ev after e Ht Hr Hg.
    destruct (main_run_facts argv w) as [_ Hp].
    eapply propagated_split; eauto.
Qed.

Lemma main_exceptions_propagate_witness :
  snd (run (main ["--databricks_workspace_name"; "ws"]) failing_publish_env)
  = Err (OtherError "HTTPError" "503").
Proof.
  eapply (proj2 main_exceptions_propagate
            ["--databricks_workspace_name"; "ws"] failing_publish_env
            (removelast (fst (run (main ["--databricks_workspace_name"; "ws"])
                                failing_publish_env)))
            (Called (publish {| handle := 10 |} "Feature Engineering"
                       "Feature engineering pipeline" (StrValue "local"))
               (Raises (OtherError "HTTPError" "503")))
            []).
  - vm_compute. reflexivity.
  - reflexivity.
  - reflexivity.
Defined.

(** ** [upload_notebook] *)

Lemma append_assoc (a b c : string) : (a ++ b) ++ c = a ++ b ++ c.
Proof. induction a as [|x a IH]; cbn; [reflexivity | now rewrite IH]. Qed.

Lemma upload_notebook_returns
    (dbricks_client : obj DatabricksClient)
    (notebook_folder notebook_dir notebook_name : string)
    (w : env) (t : trace) (path : string) :
  snd (upload_notebook dbricks_client notebook_folder notebook_dir notebook_name w t)
  = Ok path ->
  exists content,
    w string (t ++ [Entered "upload_notebook"])%list
      (read_text_file (source_file notebook_dir notebook_name)) = Returns content
    /\ path = content_path notebook_folder content notebook_name.
Proof.
  unfold upload_notebook, bind, enter, do_call, ret, source_file, content_path.
  destruct (w string _ (read_text_file _)) as [content|e] eqn:Hread;
    cbv beta iota zeta; [|discriminate].
  repeat step; cbn [snd]; try discriminate.
  intros [= <-]. exists content. split; [reflexivity|].
  now rewrite !append_assoc.
Qed.

(** C10: [upload_notebook] returns the folder, the hexadecimal SHA-1 digest
    of the UTF-8 encoding of the content of the notebook file and the name of
    the notebook, joined by [/]: it returns that path whenever the file is
    read and the two requests are answered, it returns nothing else, and two
    runs that read the same content, for the same folder and name, return
    the same path. *)
Theorem upload_notebook_content_addressed
    (notebook_folder notebook_dir notebook_name : string) :
  (forall (dbricks_client : obj DatabricksClient) (w : env) (t : trace)
          (content : string) (made imported : json),
      let t1 := (t ++ [Entered "upload_notebook"])%list in
      let read := read_text_file (source_file notebook_dir notebook_name) in
      let path := content_path notebook_folder content notebook_name in
      let mkdirs :=
        client_post dbricks_client "workspace/mkdirs"
          (JObj [("path", JStr (notebook_folder ++ "/"
                                  ++ hexdigest (sha1 (encode_utf8 content))))]) in
      let import :=
        client_post dbricks_client "workspace/import"
          (JObj [("content", JStr (b64encode (encode_utf8 content)));
                 ("path", JStr path); ("overwrite", JBool true);
                 ("language", JStr "PYTHON"); ("format", JStr "SOURCE")]) in
      let t2 := (t1 ++ [Called read (Returns content)])%list in
      let t3 := (t2 ++ [Called mkdirs (Returns made)])%list in
      w string t1 read = Returns content ->
      w json t2 mkdirs = Returns made ->
      w json t3 import = Returns imported ->
      upload_notebook dbricks_client notebook_folder notebook_dir notebook_name w t
      = ((t3 ++ [Called import (Returns imported)])%list, Ok path))
  /\ (forall (dbricks_client : obj DatabricksClient) (w : env) (t : trace)
             (path : string),
        snd (upload_notebook dbricks_client notebook_folder notebook_dir
               notebook_name w t) = Ok path ->
        exists content,
          w string (t ++ [Entered "upload_notebook"])%list
            (read_text_file (source_file notebook_dir notebook_name))
          = Returns content
          /\ path = content_path notebook_folder content notebook_name)
  /\ (forall (client1 client2 : obj DatabricksClient) (w1 w2 : env)
             (t1 t2 : trace) (content path1 path2 : string),
        w1 string (t1 ++ [Entered "upload_notebook"])%list
          (read_text_file (source_file notebook_dir notebook_name))
        = Returns content ->
        w2 string (t2 ++ [Entered "upload_notebook"])%list
          (read_text_file (source_file notebook_dir notebook_name))
        = Returns content ->
        snd (upload_notebook client1 notebook_folder notebook_dir notebook_name w1 t1)
        = Ok path1 ->
        snd (upload_notebook client2 notebook_folder notebook_dir notebook_name w2 t2)
        = Ok path2 ->
        path1 = path2).
Proof.
  split; [|split].
  - intros dbricks_client w t content made imported t1 read path mkdirs import t2 t3
      Hread Hmk Him.
    subst t1 read path mkdirs import t2 t3.
    unfold upload_notebook, bind, enter, do_call, ret.
    unfold source_file, content_path in *.
    rewrite Hread. cbv beta iota zeta.
    rewrite !append_assoc in *. cbn [append] in *.
    rewrite Hmk. rewrite Him. reflexivity.
  - intros dbricks_client w t path H.
    exact (upload_notebook_returns _ _ _ _ _ _ _ H).
  - intros client1 client2 w1 w2 t1 t2 content path1 path2 H1 H2 Hp1 Hp2.
    apply upload_notebook_returns in Hp1 as (c1 & Hc1 & ->).
    apply upload_notebook_returns in Hp2 as (c2 & Hc2 & ->).
    rewrite H1 in Hc1. rewrite H2 in Hc2.
    injection Hc1 as <-. injection Hc2 as <-. reflexivity.
Qed.

Lemma upload_notebook_content_addressed_witness :
  upload_notebook {| handle := 4 |} "/Shared/AzureMLDeployed" "code/prepare"
    "feature_engineering" (world_env ready_world) []
  = ([Entered "upload_notebook";
      Called (read_text_file "code/prepare/feature_engineering.py")
        (Returns "print(1)");
      Called (client_post {| handle := 4 |} "workspace/mkdirs"
                (JObj [("path", JStr "/Shared/AzureMLDeployed/f36c28972be9cd625bfda7a61a114cb2ed6a0436")]))
        (Returns (JObj []));
      Called (client_post {| handle := 4 |} "workspace/import"
                (JObj [("content", JStr "cHJpbnQoMSk=");
                       ("path", JStr "/Shared/AzureMLDeployed/f36c28972be9cd625bfda7a61a114cb2ed6a0436/feature_engineering");
                       ("overwrite", JBool true); ("language", JStr "PYTHON");
                       ("format", JStr "SOURCE")]))
        (Returns (JObj []))],
     Ok "/Shared/AzureMLDeployed/f36c28972be9cd625bfda7a61a114cb2ed6a0436/feature_engineering").
Proof.
  pose proof (proj1 (upload_notebook_content_addressed "/Shared/AzureMLDeployed"
                       "code/prepare" "feature_engineering")
                {| handle := 4 |} (world_env ready_world) [] "print(1)"
                (JObj []) (JObj []) eq_refl eq_refl eq_refl) as H.
  rewrite H. vm_compute. reflexivity.
Defined.

(** ** The instance pool and the compute target in [main] *)

Lemma get_instance_pool_first_match_witness :
  exists id,
    get_instance_pool {| handle := 4 |} "azureml_training" (world_env two_pools_world) []
    = ((([] ++ [Entered "get_instance_pool"])
          ++ [Called (client_get {| handle := 4 |} "instance-pools/list")
                (Returns two_pools)])%list, Ok id)
    /\ (find (pool_named "azureml_training") (listed_pools two_pools) = None -> id = JNull)
    /\ (forall pool,
          find (pool_named "azureml_training") (listed_pools two_pools) = Some pool ->
          py_getitem pool "instance_pool_id" = Ok id).
Proof.
  exact (get_instance_pool_first_match {| handle := 4 |} "azureml_training"
           (world_env two_pools_world) [] two_pools eq_refl eq_refl).
Defined.

(** C1 (counterexample): when the pool is still not listed after
    [instance-pools/create], [main] does not fail: it defines the step with
    [instance_pool_id=None] and publishes the pipeline. *)
Lemma pool_still_absent_no_failure :
  snd (run (main ["--databricks_workspace_name"; "ws"]) (world_env no_pool_world)) = Ok tt
  /\ count (is_post "instance-pools/create")
       (fst (run (main ["--databricks_workspace_name"; "ws"]) (world_env no_pool_world))) = 1
  /\ count (is_get "instance-pools/list")
       (fst (run (main ["--databricks_workspace_name"; "ws"]) (world_env no_pool_world))) = 2
  /\ existsb step_without_pool
       (fst (run (main ["--databricks_workspace_name"; "ws"]) (world_env no_pool_world))) = true
  /\ count is_publish
       (fst (run (main ["--databricks_workspace_name"; "ws"]) (world_env no_pool_world))) = 1.
Proof. vm_compute. auto. Qed.

(** C1 (amended): for the pool [azureml_training], [main] calls
    [get_instance_pool]; a true identifier is the result, with no further
    request; on [None] (or another false value) it requests
    [instance-pools/create] and calls [get_instance_pool] again, whose result
    is then the result as it is: [None] when the pool is still not listed,
    without any failure. *)
Theorem main_instance_pool_get_or_create
    (dbricks_client : obj DatabricksClient) (w : env) (t : trace) :
  let first := get_instance_pool dbricks_client "azureml_training" w t in
  let create := client_post dbricks_client "instance-pools/create" pool_request in
  (forall e, snd first = Err e ->
             main_instance_pool dbricks_client w t = (fst first, Err e))
  /\ (forall id, snd first = Ok id -> truthy id = true ->
                 main_instance_pool dbricks_client w t = (fst first, Ok id))
  /\ (forall id e, snd first = Ok id -> truthy id = false ->
                   w json (fst first) create = Raises e ->
                   main_instance_pool dbricks_client w t
                   = ((fst first ++ [Called create (Raises e)])%list, Err e))
  /\ (forall id created, snd first = Ok id -> truthy id = false ->
                         w json (fst first) create = Returns created ->
                         main_instance_pool dbricks_client w t
                         = get_instance_pool dbricks_client "azureml_training" w
                             (fst first ++ [Called create (Returns created)])%list)
  /\ (forall id created response,
        snd first = Ok id -> truthy id = false ->
        w json (fst first) create = Returns created ->
        w json ((fst first ++ [Called create (Returns created)])
                  ++ [Entered "get_instance_pool"])%list
          (client_get dbricks_client "instance-pools/list") = Returns response ->
        conforms response = true ->
        find (pool_named "azureml_training") (listed_pools response) = None ->
        snd (main_instance_pool dbricks_client w t) = Ok JNull).
Proof.
  intros first create.
  assert (Hcreate :
    forall id created, snd first = Ok id -> truthy id = false ->
      w json (fst first) create = Returns created ->
      main_instance_pool dbricks_client w t
      = get_instance_pool dbricks_client "azureml_training" w
          (fst first ++ [Called create (Returns created)])%list).
  { intros id created Hfirst Hfalse Hw.
    unfold main_instance_pool. fold pool_request. fold create.
    unfold bind at 1. fold first.
    destruct first as [t1 r1]. cbn [fst snd] in *. subst r1.
    rewrite Hfalse. cbn [negb]. unfold bind, do_call. now rewrite Hw. }
  repeat split.
  - intros e Hfirst. unfold main_instance_pool, bind at 1. fold first.
    destruct first as [t1 r1]. cbn [fst snd] in *. now subst r1.
  - intros id Hfirst Htrue. unfold main_instance_pool, bind at 1. fold first.
    destruct first as [t1 r1]. cbn [fst snd] in *. subst r1.
    rewrite Htrue. reflexivity.
  - intros id e Hfirst Hfalse Hw.
    unfold main_instance_pool. fold pool_request. fold create.
    unfold bind at 1. fold first.
    destruct first as [t1 r1]. cbn [fst snd] in *. subst r1.
    rewrite Hfalse. cbn [negb]. unfold bind, do_call. now rewrite Hw.
  - exact Hcreate.
  - intros id created response Hfirst Hfalse Hw Hlist Hconf Hnone.
    rewrite (Hcreate id created Hfirst Hfalse Hw).
    unfold get_instance_pool at 1, bind, enter, do_call, lift, ret.
    rewrite Hlist.
    destruct response as [| | | |?|fields]; try discriminate.
    cbn [conforms] in Hconf. cbn [py_contains listed_pools py_getitem] in *.
    destruct (assoc "instance_pools" fields) as [pools|]; [|reflexivity].
    destruct pools as [| | | |pools|?]; try discriminate.
    cbn [py_iter snd].
    destruct (find_pool_first_match "azureml_training" pools Hconf)
      as (id' & Hfind & Hn & _).
    rewrite Hfind. now rewrite (Hn Hnone).
Qed.

Lemma main_instance_pool_get_or_create_witness :
  snd (main_instance_pool {| handle := 4 |} (world_env no_pool_world) []) = Ok JNull
  /\ main_instance_pool {| handle := 4 |} (world_env two_pools_world) []
     = (fst (get_instance_pool {| handle := 4 |} "azureml_training"
               (world_env two_pools_world) []), Ok (JStr "pool-1")).
Proof.
  split.
  - eapply (proj2 (proj2 (proj2 (proj2
              (main_instance_pool_get_or_create {| handle := 4 |}
                 (world_env no_pool_world) []))))
            JNull (JObj []) (JObj [])); reflexivity.
  - apply (proj1 (proj2 (main_instance_pool_get_or_create {| handle := 4 |}
                           (world_env two_pools_world) []))); reflexivity.
Defined.

(** C5 (counterexample): with no compute target named [databricks] in the
    workspace, a run of [main] requests the token and enters
    [create_databricks_compute], but no compute target is attached: the run
    ends with [NameError] before [ComputeTarget.attach]; and with the build
    identifier [--build_id=--], which is no string, the target is missing
    and not even [token/create] is requested. *)
Lemma compute_missing_not_attached :
  dict_contains "databricks" (compute_targets (workspace_with [])) = false
  /\ count (is_post "token/create")
       (fst (run (main ["--databricks_workspace_name"; "ws"])
               (world_env (quiet_world (workspace_with []))))) = 1
  /\ count (is_entered "create_databricks_compute")
       (fst (run (main ["--databricks_workspace_name"; "ws"])
               (world_env (quiet_world (workspace_with []))))) = 1
  /\ count is_attach
       (fst (run (main ["--databricks_workspace_name"; "ws"])
               (world_env (quiet_world (workspace_with []))))) = 0
  /\ snd (run (main ["--databricks_workspace_name"; "ws"])
            (world_env (quiet_world (workspace_with []))))
     = Err (NameError "args")
  /\ count (is_post "token/create")
       (fst (run (main ["--databricks_workspace_name"; "ws"; "--build_id=--"])
               (world_env (quiet_world (workspace_with []))))) = 0
  /\ count (is_entered "create_databricks_compute")
       (fst (run (main ["--databricks_workspace_name"; "ws"; "--build_id=--"])
               (world_env (quiet_world (workspace_with []))))) = 0.
Proof. vm_compute. repeat split; reflexivity. Qed.

(** C5 (amended): in lines 171-188 of [main], [token/create] is requested
    only when the workspace has no compute target named [databricks], and,
    with a build identifier that is a string, whenever it has none;
    [create_databricks_compute] is called only when the target is missing,
    and is called once [token/create] is answered with a [token_value]; when
    the target is there as a [DatabricksCompute], the only event is the
    look-up and the result is that target. *)
Theorem main_compute_create_iff_missing
    (args : Namespace) (aml_workspace : Workspace)
    (dbricks_client : obj DatabricksClient) (w : env) (t : trace) :
  let out := main_compute args aml_workspace dbricks_client w t in
  let missing := negb (dict_contains "databricks" (compute_targets aml_workspace)) in
  exists d,
    fst out = (t ++ d)%list
    /\ (existsb (is_post "token/create") d = true -> missing = true)
    /\ (forall build,
          namespace_attr args "build_id" = Ok (StrValue build) ->
          existsb (is_post "token/create") d = missing)
    /\ (existsb (is_entered "create_databricks_compute") d = true -> missing = true)
    /\ (forall build response token,
          namespace_attr args "build_id" = Ok (StrValue build) ->
          missing = true ->
          w json (t ++ [Entered "get_databricks_compute"])%list
            (client_post dbricks_client "token/create" (token_request build))
          = Returns response ->
          py_getitem response "token_value" = Ok token ->
          existsb (is_entered "create_databricks_compute") d = true)
    /\ (forall existing,
          assoc "databricks" (compute_targets aml_workspace) = Some existing ->
          compute_class existing = "DatabricksCompute" ->
          d = [Entered "get_databricks_compute"] /\ snd out = Ok existing).
Proof.
  intros out missing. subst out missing.
  unfold main_compute, get_databricks_compute, create_databricks_compute,
    bind, enter, lift, ret, raise, do_call, dict_contains, dict_getitem,
    object_truthy, token_request.
  change (load_global "args") with (@Err binding (NameError "args")).
  destruct (assoc "databricks" (compute_targets aml_workspace)) as [existing|];
    cbn [negb andb].
  - exists [Entered "get_databricks_compute"].
    destruct (String.eqb_spec (compute_class existing) "DatabricksCompute") as [Hc|Hc];
      cbn [fst snd]; (split; [reflexivity|]); (split; [discriminate|]);
      (split; [reflexivity|]); (split; [discriminate|]);
      (split; [discriminate|]).
    + intros existing' [= <-] _. auto.
    + intros existing' [= <-] Hc'. contradiction.
  - destruct (namespace_attr args "build_id") as [[|build|]|e0]; cbn [str_add];
      try solve [exists [Entered "get_databricks_compute"]; cbn [fst snd];
                 split; [reflexivity|]; split; [reflexivity|];
                 split; [discriminate|]; split; [reflexivity|];
                 split; discriminate].
    destruct (w json _ (client_post _ _ _)) as [response|e] eqn:Hpost;
      cbv beta iota zeta.
    + destruct (py_getitem response "token_value") as [token|e] eqn:Htoken;
        cbn [fst snd].
      * eexists. rewrite <- !app_assoc. split; [reflexivity|].
        repeat split; try discriminate; reflexivity.
      * eexists. rewrite <- !app_assoc. split; [reflexivity|].
        repeat split; try discriminate; try reflexivity.
        intros build' response' token' [= <-] _. rewrite Hpost.
        intros [= <-]. now rewrite Htoken.
    + cbn [fst snd]. eexists. rewrite <- !app_assoc. split; [reflexivity|].
      repeat split; try discriminate; try reflexivity.
      intros build' response' token' [= <-] _. now rewrite Hpost.
Qed.

Lemma main_compute_create_iff_missing_witness :
  (exists d,
      fst (main_compute [("build_id", StrValue "7")] ready_workspace {| handle := 4 |}
             (world_env ready_world) []) = ([] ++ d)%list
      /\ d = [Entered "get_databricks_compute"]
      /\ existsb (is_post "token/create") d = false)
  /\ (exists d,
        fst (main_compute [("build_id", StrValue "7")] (workspace_with [])
               {| handle := 4 |} (world_env (quiet_world (workspace_with []))) [])
        = ([] ++ d)%list
        /\ existsb (is_post "token/create") d = true
        /\ existsb (is_entered "create_databricks_compute") d = true).
Proof.
  split.
  - destruct (main_compute_create_iff_missing [("build_id", StrValue "7")]
                ready_workspace {| handle := 4 |} (world_env ready_world) [])
      as (d & Hd & _ & Hpost & _ & _ & Hexisting).
    exists d. destruct (Hexisting databricks_target eq_refl eq_refl) as [-> _].
    auto.
  - destruct (main_compute_create_iff_missing [("build_id", StrValue "7")]
                (workspace_with []) {| handle := 4 |}
                (world_env (quiet_world (workspace_with []))) [])
      as (d & Hd & _ & Hpost & _ & Hcreate & _).
    exists d. split; [exact Hd|]. split; [exact (Hpost "7" eq_refl)|].
    apply (Hcreate "7" (JObj [("token_value", JStr "dapi-token")])
             (JStr "dapi-token")); reflexivity.
Defined.

(** ** The command line *)

Lemma main_parser_actions : main_parser = [help_action; workspace_action; build_action].
Proof. reflexivity. Qed.


Lemma prefix_length (a b : string) :
  String.prefix a b = true -> String.length a <= String.length b.
Proof.
  revert b; induction a as [|x a IH]; intros [|y b] H;
    cbn [String.prefix String.length] in *; try lia; try congruence.
  destruct (ascii_dec x y); [|congruence]. apply IH in H. lia.
Qed.




Lemma parse_optional_exit (tok : string) (e : exn) :
  parse_optional main_parser tok = Err e -> e = SystemExit.
Proof.
  unfold parse_optional.
  destruct tok as [|c rest]; [discriminate|].
  destruct (negb (Ascii.eqb c "-")); [discriminate|].
  destruct (find_action main_parser _); [discriminate|].
  destruct rest; [discriminate|].
  destruct (match split_eq _ with Some _ => _ | None => _ end); [discriminate|].
  destruct (get_option_tuples main_parser _) as [|[a1 ex1] [|? ?]].
  - destruct (is_negative_number _); [discriminate|].
    destruct (has_space _); discriminate.
  - discriminate.
  - now intros [= <-].
Qed.

Lemma assoc_set_attr_other (ns : Namespace) (name other : string) (v : attr_value) :
  String.eqb name other = false ->
  assoc other (set_attr ns name v) = assoc other ns.
Proof.
  intros Hne. induction ns as [|[k x] ns IH]; cbn [set_attr assoc].
  - now rewrite Hne.
  - destruct (String.eqb_spec k name) as [->|Hk]; cbn [assoc].
    + now rewrite Hne.
    + now rewrite IH.
Qed.








(** * Further properties of the module *)

(** ** [get_instance_pool]: the scan of the listing *)

Lemma find_pool_skip (pool_name : string) (before rest : list json) :
  forallb is_pool before = true ->
  existsb (pool_named pool_name) before = false ->
  find_pool (before ++ rest) pool_name = find_pool rest pool_name.
Proof.
  induction before as [|pool before IH]; intros Hall Hnone; [reflexivity|].
  cbn [forallb existsb] in Hall, Hnone.
  apply andb_true_iff in Hall as [Hpool Hall].
  apply orb_false_iff in Hnone as [Hname Hnone].
  destruct pool as [| | | |?|fields]; try discriminate.
  cbn [is_pool] in Hpool. apply andb_true_iff in Hpool as [Hn _].
  unfold dict_contains in Hn. unfold pool_named, py_getitem in Hname.
  cbn [app find_pool]. unfold py_getitem, rbind.
  destruct (assoc "instance_pool_name" fields) as [name|]; [|discriminate].
  rewrite Hname. now apply IH.
Qed.

(** The loop of [get_instance_pool] returns at the first pool of the given
    name: the pools listed after it are not looked at, whatever they are. *)
Theorem get_instance_pool_early_return
    (dbricks_client : obj DatabricksClient) (pool_name : string)
    (w : env) (t : trace) (fields : list (string * json))
    (before : list json) (pool : json) (after : list json) (id : json) :
  w json (t ++ [Entered "get_instance_pool"])%list
    (client_get dbricks_client "instance-pools/list") = Returns (JObj fields) ->
  assoc "instance_pools" fields = Some (JArr (before ++ pool :: after)) ->
  forallb is_pool before = true ->
  existsb (pool_named pool_name) before = false ->
  pool_named pool_name pool = true ->
  py_getitem pool "instance_pool_id" = Ok id ->
  snd (get_instance_pool dbricks_client pool_name w t) = Ok id.
Proof.
  intros Hw Hpools Hall Hnone Hname Hid.
  unfold get_instance_pool, bind, enter, do_call, lift, ret. rewrite Hw.
  cbn [py_contains py_getitem]. rewrite Hpools. cbn [py_iter snd].
  rewrite (find_pool_skip pool_name before (pool :: after) Hall Hnone).
  cbn [find_pool]. unfold pool_named in Hname. unfold rbind.
  destruct (py_getitem pool "instance_pool_name") as [name|]; [|discriminate].
  now rewrite Hname.
Qed.

Lemma get_instance_pool_early_return_witness :
  snd (get_instance_pool {| handle := 4 |} "azureml_training"
         (world_env (listing_world malformed_tail)) []) = Ok (JStr "pool-1").
Proof.
  apply (get_instance_pool_early_return {| handle := 4 |} "azureml_training"
           (world_env (listing_world malformed_tail)) []
           [("instance_pools",
             JArr [JObj [("instance_pool_name", JStr "other");
                         ("instance_pool_id", JStr "pool-0")];
                   JObj [("instance_pool_name", JStr "azureml_training");
                         ("instance_pool_id", JStr "pool-1")];
                   JNum 7; JObj []])]
           [JObj [("instance_pool_name", JStr "other");
                  ("instance_pool_id", JStr "pool-0")]]
           (JObj [("instance_pool_name", JStr "azureml_training");
                  ("instance_pool_id", JStr "pool-1")])
           [JNum 7; JObj []]); reflexivity.
Defined.

(** A listed object without [instance_pool_name], met before any pool of the
    given name, ends [get_instance_pool] with [KeyError] for that key; a pool
    of the given name without [instance_pool_id] ends it with [KeyError] for
    that one. *)
Theorem get_instance_pool_key_errors
    (dbricks_client : obj DatabricksClient) (pool_name : string)
    (w : env) (t : trace) (fields : list (string * json))
    (before : list json) (bad : list (string * json)) (after : list json) :
  w json (t ++ [Entered "get_instance_pool"])%list
    (client_get dbricks_client "instance-pools/list") = Returns (JObj fields) ->
  assoc "instance_pools" fields = Some (JArr (before ++ JObj bad :: after)) ->
  forallb is_pool before = true ->
  existsb (pool_named pool_name) before = false ->
  (assoc "instance_pool_name" bad = None ->
   snd (get_instance_pool dbricks_client pool_name w t)
   = Err (KeyError "instance_pool_name"))
  /\ (pool_named pool_name (JObj bad) = true ->
      assoc "instance_pool_id" bad = None ->
      snd (get_instance_pool dbricks_client pool_name w t)
      = Err (KeyError "instance_pool_id")).
Proof.
  intros Hw Hpools Hall Hnone.
  unfold get_instance_pool, bind, enter, do_call, lift, ret. rewrite Hw.
  cbn [py_contains py_getitem]. rewrite Hpools. cbn [py_iter snd].
  rewrite (find_pool_skip pool_name before (JObj bad :: after) Hall Hnone).
  cbn [find_pool]. unfold pool_named, py_getitem, rbind.
  split.
  - intros Hname. now rewrite Hname.
  - intros Hname Hid.
    destruct (assoc "instance_pool_name" bad) as [name|]; [|discriminate].
    now rewrite Hname, Hid.
Qed.

Lemma get_instance_pool_key_errors_witness :
  snd (get_instance_pool {| handle := 4 |} "azureml_training"
         (world_env (listing_world nameless_pool)) [])
  = Err (KeyError "instance_pool_name")
  /\ snd (get_instance_pool {| handle := 4 |} "azureml_training"
            (world_env (listing_world idless_pool)) [])
     = Err (KeyError "instance_pool_id").
Proof.
  split.
  - apply (proj1 (get_instance_pool_key_errors {| handle := 4 |} "azureml_training"
                    (world_env (listing_world nameless_pool)) []
                    [("instance_pools",
                      JArr [JObj [("instance_pool_name", JStr "other");
                                  ("instance_pool_id", JStr "pool-0")];
                            JObj [("instance_pool_id", JStr "pool-1")]])]
                    [JObj [("instance_pool_name", JStr "other");
                           ("instance_pool_id", JStr "pool-0")]]
                    [("instance_pool_id", JStr "pool-1")] []
                    eq_refl eq_refl eq_refl eq_refl)).
    reflexivity.
  - apply (proj2 (get_instance_pool_key_errors {| handle := 4 |} "azureml_training"
                    (world_env (listing_world idless_pool)) []
                    [("instance_pools",
                      JArr [JObj [("instance_pool_name", JStr "azureml_training")]])]
                    [] [("instance_pool_name", JStr "azureml_training")] []
                    eq_refl eq_refl eq_refl eq_refl)); reflexivity.
Defined.

Lemma find_pool_errors (pools : list json) (pool_name : string) (e : exn) :
  find_pool pools pool_name = Err e ->
  e = KeyError "instance_pool_name" \/ e = KeyError "instance_pool_id"
  \/ exists what, e = TypeError what.
Proof.
  induction pools as [|pool pools IH]; [discriminate|].
  cbn [find_pool]. unfold rbind.
  destruct (py_getitem pool "instance_pool_name") as [name|e'] eqn:Hn.
  - destruct (py_eq_str name pool_name); [|exact IH].
    destruct pool as [| | | |?|bad]; cbn [py_getitem]; try (intros [= <-]; eauto).
    destruct (assoc "instance_pool_id" bad); [discriminate|intros [= <-]; auto].
  - intros [= <-].
    destruct pool as [| | | |?|bad]; cbn [py_getitem] in Hn;
      try (injection Hn as <-; eauto).
    destruct (assoc "instance_pool_name" bad); [discriminate|].
    injection Hn as <-. auto.
Qed.

(** Whatever the service answers, [get_instance_pool] makes one request, the
    [GET] of [instance-pools/list], and when it fails it is with the
    exception of that request, with [KeyError] for one of the two keys of a
    pool, or with [TypeError]. *)
Theorem get_instance_pool_one_request
    (dbricks_client : obj DatabricksClient) (pool_name : string)
    (w : env) (t : trace) :
  let request := client_get dbricks_client "instance-pools/list" in
  let t1 := (t ++ [Entered "get_instance_pool"])%list in
  fst (get_instance_pool dbricks_client pool_name w t)
  = (t1 ++ [Called request (w json t1 request)])%list
  /\ (forall e,
        snd (get_instance_pool dbricks_client pool_name w t) = Err e ->
        w json t1 request = Raises e
        \/ e = KeyError "instance_pool_name" \/ e = KeyError "instance_pool_id"
        \/ exists what, e = TypeError what).
Proof.
  intros request t1. subst request t1.
  unfold get_instance_pool, bind, enter, do_call, lift, ret.
  destruct (w json _ (client_get _ _)) as [response|e0]; cbv beta iota zeta.
  - destruct response as [| | |s|items|fields]; cbn [py_contains fst snd];
      try (split; [reflexivity|]; intros e [= <-]; right; right; right; eauto).
    + destruct (is_substring "instance_pools" s); cbn [py_getitem fst snd];
        (split; [reflexivity|]); [|discriminate].
      intros e [= <-]. right. right. right. eauto.
    + destruct (existsb _ items); cbn [py_getitem fst snd];
        (split; [reflexivity|]); [|discriminate].
      intros e [= <-]. right. right. right. eauto.
    + unfold py_getitem.
      destruct (assoc "instance_pools" fields) as [pools|]; cbn [fst snd];
        [|split; [reflexivity|discriminate]].
      destruct (py_iter pools) as [items|e1] eqn:Hiter; cbn [fst snd].
      * destruct (find_pool items pool_name) as [id|e2] eqn:Hfind; cbn [fst snd];
          (split; [reflexivity|]); [discriminate|].
        intros e [= <-]. right. eapply find_pool_errors; eauto.
      * split; [reflexivity|]. intros e [= <-]. right. right. right.
        destruct pools; cbn [py_iter] in Hiter; try discriminate;
          injection Hiter as <-; eauto.
  - cbn [fst snd]. split; [reflexivity|]. intros e [= <-]. auto.
Qed.

(** ** [upload_notebook]: what is sent, and when *)

(** [upload_notebook] sends nothing when the notebook file cannot be read;
    it requests the import only after [workspace/mkdirs] was answered, into
    the directory it had created, with [overwrite]; and it returns a path
    only when the import of that path was answered. *)
Theorem upload_notebook_requests
    (dbricks_client : obj DatabricksClient)
    (notebook_folder notebook_dir notebook_name : string) (w : env) (t : trace) :
  exists d,
    fst (upload_notebook dbricks_client notebook_folder notebook_dir notebook_name w t)
    = (t ++ Entered "upload_notebook" :: d)%list
    /\ (forall e,
          w string (t ++ [Entered "upload_notebook"])%list
            (read_text_file (source_file notebook_dir notebook_name)) = Raises e ->
          existsb is_request d = false
          /\ snd (upload_notebook dbricks_client notebook_folder notebook_dir
                    notebook_name w t) = Err e)
    /\ (forall body o,
          In (body, o) (posts "workspace/import" d) ->
          exists dir made,
            posts "workspace/mkdirs" d = [(JObj [("path", JStr dir)], Returns made)]
            /\ py_getitem body "path" = Ok (JStr (dir ++ "/" ++ notebook_name))
            /\ py_getitem body "overwrite" = Ok (JBool true))
    /\ (forall path,
          snd (upload_notebook dbricks_client notebook_folder notebook_dir
                 notebook_name w t) = Ok path ->
          exists body imported,
            posts "workspace/import" d = [(body, Returns imported)]
            /\ py_getitem body "path" = Ok (JStr path)).
Proof.
  unfold upload_notebook, bind, enter, do_call, ret, source_file.
  destruct (w string _ (read_text_file _)) as [content|e] eqn:Hread;
    cbv beta iota zeta.
  - destruct (w json _ (client_post _ "workspace/mkdirs" _)) as [made|e];
      cbv beta iota zeta.
    + destruct (w json _ (client_post _ "workspace/import" _)) as [imported|e];
        cbv beta iota zeta; cbn [fst snd]; eexists;
        (split; [rewrite <- !app_assoc; reflexivity|]);
        (split; [discriminate|]); cbn [posts flat_map String.eqb Ascii.eqb Bool.eqb app].
      * split.
        -- intros body o [[= <- <-]|[]]. do 2 eexists. split; [reflexivity|].
           split; reflexivity.
        -- intros path [= <-]. do 2 eexists. split; reflexivity.
      * split; [|discriminate].
        intros body o [[= <- <-]|[]]. do 2 eexists. split; [reflexivity|].
        split; reflexivity.
    + cbn [fst snd]. eexists. split; [rewrite <- !app_assoc; reflexivity|].
      split; [discriminate|]. cbn [posts flat_map String.eqb Ascii.eqb Bool.eqb app].
      split; [intros body o []|discriminate].
  - cbn [fst snd]. eexists. split; [rewrite <- !app_assoc; reflexivity|].
    split; [intros e' [= <-]; split; reflexivity|].
    split; [intros body o []|discriminate].
Qed.

Lemma upload_notebook_requests_witness :
  snd (upload_notebook {| handle := 4 |} "/Shared/AzureMLDeployed" "code/prepare"
         "feature_engineering" unreadable_env [])
  = Err (OtherError "FileNotFoundError" "feature_engineering.py").
Proof.
  destruct (upload_notebook_requests {| handle := 4 |} "/Shared/AzureMLDeployed"
              "code/prepare" "feature_engineering" unreadable_env [])
    as (d & _ & Hread & _).
  exact (proj2 (Hread _ eq_refl)).
Defined.

(** ** The compute target in [main]: a build identifier that is no string *)

(** When the workspace has no target named [databricks] and the build
    identifier of the command line is not a string, lines 171-188 of [main]
    end with [TypeError] while the comment of the token request is built: no
    request is made. *)
Theorem main_compute_build_id_not_str
    (args : Namespace) (aml_workspace : Workspace)
    (dbricks_client : obj DatabricksClient) (w : env) (t : trace) (v : attr_value) :
  namespace_attr args "build_id" = Ok v ->
  (forall s, v <> StrValue s) ->
  dict_contains "databricks" (compute_targets aml_workspace) = false ->
  exists what,
    main_compute args aml_workspace dbricks_client w t
    = ((t ++ [Entered "get_databricks_compute"])%list, Err (TypeError what)).
Proof.
  intros Hbuild Hv Hmissing.
  unfold main_compute, get_databricks_compute, bind, enter, lift, ret.
  rewrite Hmissing, Hbuild. cbn [negb].
  destruct v as [| s |]; cbn [str_add]; eauto.
  now destruct (Hv s).
Qed.

Lemma main_compute_build_id_not_str_witness :
  exists what,
    main_compute [("databricks_workspace_name", StrValue "ws"); ("build_id", EmptyList)]
      (workspace_with []) {| handle := 4 |}
      (world_env (quiet_world (workspace_with []))) []
    = (([] ++ [Entered "get_databricks_compute"])%list, Err (TypeError what)).
Proof.
  apply (main_compute_build_id_not_str
           [("databricks_workspace_name", StrValue "ws"); ("build_id", EmptyList)]
           (workspace_with []) {| handle := 4 |}
           (world_env (quiet_world (workspace_with []))) [] EmptyList).
  - reflexivity.
  - discriminate.
  - reflexivity.
Defined.

(** ** Every run of [main]: what is requested, and in which order *)

Lemma is_request_op (e : event) :
  is_request e = true -> op_is_request (op_of e) = true.
Proof.
  destruct e as [T c o|f]; [destruct c|]; cbn; try discriminate;
    decide_strings; reflexivity.
Qed.

Lemma is_auth_op (e : event) : is_auth e = op_eqb OAuthAzureAD (op_of e).
Proof. revert e. by_op. Qed.

Lemma is_new_step_op (e : event) : is_new_step e = op_eqb ONewStep (op_of e).
Proof. revert e. by_op. Qed.

Lemma is_validate_op (e : event) : is_validate e = op_eqb OValidate (op_of e).
Proof. revert e. by_op. Qed.

#[local] Hint Resolve is_auth_op is_new_step_op is_validate_op : ops.

Lemma auth_first_split (ops : list op) :
  forall (seen : bool) (before : list op) (o : op) (after : list op),
    auth_first seen ops = true ->
    ops = (before ++ o :: after)%list ->
    op_is_request o = true ->
    seen || existsb (op_eqb OAuthAzureAD) before = true.
Proof.
  induction ops as [|x ops IH]; intros seen before o after Hscan Heq Hreq.
  - destruct before; discriminate.
  - cbn [auth_first] in Hscan. apply andb_true_iff in Hscan as [Hx Hrest].
    destruct before as [|b before]; cbn [app] in Heq; injection Heq as -> ->.
    + rewrite Hreq in Hx. cbn in Hx. rewrite Hx. reflexivity.
    + specialize (IH _ _ _ _ Hrest eq_refl Hreq). cbn [existsb].
      destruct seen; [reflexivity|]. exact IH.
Qed.

(** In a run of [main], every request to the Databricks REST API comes
    after [auth_azuread] was called and had returned. *)
Theorem main_requests_after_auth
    (argv : list string) (w : env) (before : trace) (e : event) (after : trace) :
  fst (run (main argv) w) = (before ++ e :: after)%list ->
  is_request e = true ->
  existsb is_auth_done before = true.
Proof.
  intros Ht Hreq.
  pose proof (main_run_check (fun ops _ => auth_first false ops) eq_refl argv w) as Hscan.
  cbv beta in Hscan. rewrite Ht, map_app in Hscan. cbn [map] in Hscan.
  pose proof (auth_first_split _ false _ _ _ Hscan eq_refl (is_request_op e Hreq)) as Hauth.
  cbn [orb] in Hauth.
  rewrite <- (existsb_by_op is_auth) in Hauth by auto with ops.
  apply existsb_exists in Hauth as (x & Hin & Hx).
  apply in_split in Hin as (p & q & ->).
  apply existsb_exists. exists x. split; [apply in_elt|].
  destruct (main_run_facts argv w) as [_ Hp].
  destruct x as [T c o|f]; [|discriminate].
  destruct o as [v|ex].
  - destruct c; try discriminate. reflexivity.
  - exfalso.
    rewrite Ht, <- app_assoc in Hp. cbn [app] in Hp.
    destruct (propagated_split _ _ Hp p (Called c (Raises ex)) (q ++ e :: after)%list
                ex eq_refl eq_refl) as [Hnil _].
    + destruct c; try discriminate; reflexivity.
    + destruct q; discriminate.
Qed.

Lemma main_requests_after_auth_witness :
  existsb is_auth_done (firstn 11 (fst (run (main ready_argv) (world_env ready_world))))
  = true.
Proof.
  apply (main_requests_after_auth ready_argv (world_env ready_world)
           (firstn 11 (fst (run (main ready_argv) (world_env ready_world))))
           (Called (client_get {| handle := 4 |} "instance-pools/list")
              (Returns (JObj [])))
           (skipn 12 (fst (run (main ready_argv) (world_env ready_world))))).
  - vm_compute. reflexivity.
  - reflexivity.
Defined.

Lemma is_read_file_op (e : event) : is_read_file e = op_eqb OReadFile (op_of e).
Proof. revert e. by_op. Qed.

#[local] Hint Resolve is_read_file_op : ops.

(** A run of [main] that completes has read the notebook file, created its
    directory, imported it, defined the step, validated and published the
    pipeline, each exactly once, and made no request for a token. *)
Theorem main_completed_once (argv : list string) (w : env) :
  snd (run (main argv) w) = Ok tt ->
  count is_read_file (fst (run (main argv) w)) = 1
  /\ count (is_post "workspace/mkdirs") (fst (run (main argv) w)) = 1
  /\ count (is_post "workspace/import") (fst (run (main argv) w)) = 1
  /\ count is_new_step (fst (run (main argv) w)) = 1
  /\ count is_validate (fst (run (main argv) w)) = 1
  /\ count is_publish (fst (run (main argv) w)) = 1
  /\ count (is_post "token/create") (fst (run (main argv) w)) = 0.
Proof.
  intros Hok.
  rewrite (count_by_op is_read_file OReadFile),
    (count_by_op (is_post "workspace/mkdirs") OMkdirs),
    (count_by_op (is_post "workspace/import") OImport),
    (count_by_op is_new_step ONewStep), (count_by_op is_validate OValidate),
    (count_by_op is_publish OPublish),
    (count_by_op (is_post "token/create") OTokenCreate) by auto with ops.
  pose proof (main_run_check
    (fun ops e =>
       match e with
       | Completed =>
           Nat.eqb (count_op OReadFile ops) 1 && Nat.eqb (count_op OMkdirs ops) 1
           && Nat.eqb (count_op OImport ops) 1 && Nat.eqb (count_op ONewStep ops) 1
           && Nat.eqb (count_op OValidate ops) 1 && Nat.eqb (count_op OPublish ops) 1
           && Nat.eqb (count_op OTokenCreate ops) 0
       | _ => true
       end) eq_refl argv w) as H.
  cbv beta in H. rewrite Hok in H. cbn [ending_of] in H.
  repeat (apply andb_true_iff in H; destruct H as [H ?]).
  repeat split; now apply Nat.eqb_eq.
Qed.

Lemma main_completed_once_witness :
  count is_read_file (fst (run (main ready_argv) (world_env ready_world))) = 1
  /\ count (is_post "workspace/mkdirs") (fst (run (main ready_argv) (world_env ready_world))) = 1
  /\ count (is_post "workspace/import") (fst (run (main ready_argv) (world_env ready_world))) = 1
  /\ count is_new_step (fst (run (main ready_argv) (world_env ready_world))) = 1
  /\ count is_validate (fst (run (main ready_argv) (world_env ready_world))) = 1
  /\ count is_publish (fst (run (main ready_argv) (world_env ready_world))) = 1
  /\ count (is_post "token/create") (fst (run (main ready_argv) (world_env ready_world))) = 0.
Proof.
  apply main_completed_once. vm_compute. reflexivity.
Defined.

(** A run of [main] that requests a token does not complete and goes no
    further than the compute target: it lists and creates no pool, sends no
    notebook and publishes nothing. *)
Theorem main_token_then_failure (argv : list string) (w : env) :
  existsb (is_post "token/create") (fst (run (main argv) w)) = true ->
  (exists e, snd (run (main argv) w) = Err e)
  /\ count (is_get "instance-pools/list") (fst (run (main argv) w)) = 0
  /\ count (is_post "instance-pools/create") (fst (run (main argv) w)) = 0
  /\ count (is_post "workspace/import") (fst (run (main argv) w)) = 0
  /\ count is_publish (fst (run (main argv) w)) = 0.
Proof.
  intros Htoken.
  rewrite (existsb_by_op _ OTokenCreate) in Htoken by auto with ops.
  rewrite (count_by_op (is_get "instance-pools/list") OPoolList),
    (count_by_op (is_post "instance-pools/create") OPoolCreate),
    (count_by_op (is_post "workspace/import") OImport),
    (count_by_op is_publish OPublish) by auto with ops.
  pose proof (main_run_check
    (fun ops e =>
       negb (existsb (op_eqb OTokenCreate) ops)
       || (negb (ending_eqb e Completed)
           && Nat.eqb (count_op OPoolList ops) 0 && Nat.eqb (count_op OPoolCreate ops) 0
           && Nat.eqb (count_op OImport ops) 0 && Nat.eqb (count_op OPublish ops) 0))
    eq_refl argv w) as H.
  cbv beta in H. rewrite Htoken in H. cbn [negb orb] in H.
  repeat (apply andb_true_iff in H; destruct H as [H ?]).
  repeat split; try now apply Nat.eqb_eq.
  destruct (snd (run (main argv) w)) as [[]|e]; [discriminate|eauto].
Qed.

Lemma main_token_then_failure_witness :
  (exists e, snd (run (main ready_argv) (world_env (quiet_world (workspace_with []))))
             = Err e)
  /\ count (is_get "instance-pools/list")
       (fst (run (main ready_argv) (world_env (quiet_world (workspace_with []))))) = 0
  /\ count (is_post "instance-pools/create")
       (fst (run (main ready_argv) (world_env (quiet_world (workspace_with []))))) = 0
  /\ count (is_post "workspace/import")
       (fst (run (main ready_argv) (world_env (quiet_world (workspace_with []))))) = 0
  /\ count is_publish
       (fst (run (main ready_argv) (world_env (quiet_world (workspace_with []))))) = 0.
Proof.
  apply main_token_then_failure. vm_compute. reflexivity.
Defined.

(** A run of [main] in which the publication is requested, answered or not,
    has passed through all the stages before it, in their order. *)
Theorem main_publish_after_all_stages (argv : list string) (w : env) :
  existsb is_publish (fst (run (main argv) w)) = true ->
  stages (fst (run (main argv) w))
  = [Authenticate; ResolveCompute; ResolvePool; UploadNotebook; DefineStep;
     PublishPipeline]
  /\ count (is_post "workspace/import") (fst (run (main argv) w)) = 1
  /\ count is_validate (fst (run (main argv) w)) = 1.
Proof.
  intros Hpub.
  rewrite (existsb_by_op _ OPublish) in Hpub by auto with ops.
  rewrite stages_by_op, (count_by_op (is_post "workspace/import") OImport),
    (count_by_op is_validate OValidate) by auto with ops.
  pose proof (main_run_check
    (fun ops _ =>
       negb (existsb (op_eqb OPublish) ops)
       || (stages_eqb (stages_of_ops ops)
             [Authenticate; ResolveCompute; ResolvePool; UploadNotebook;
              DefineStep; PublishPipeline]
           && Nat.eqb (count_op OImport ops) 1 && Nat.eqb (count_op OValidate ops) 1))
    eq_refl argv w) as H.
  cbv beta in H. rewrite Hpub in H. cbn [negb orb] in H.
  repeat (apply andb_true_iff in H; destruct H as [H ?]).
  repeat split; try now apply Nat.eqb_eq. now apply stages_eqb_eq.
Qed.

Lemma main_publish_after_all_stages_witness :
  stages (fst (run (main ready_argv) failing_publish_env))
  = [Authenticate; ResolveCompute; ResolvePool; UploadNotebook; DefineStep;
     PublishPipeline]
  /\ count (is_post "workspace/import") (fst (run (main ready_argv) failing_publish_env)) = 1
  /\ count is_validate (fst (run (main ready_argv) failing_publish_env)) = 1.
Proof.
  apply main_publish_after_all_stages. vm_compute. reflexivity.
Defined.

(** ** The command line: help, values and abbreviations *)

Lemma consume_help (n : nat) :
  forall (argv : list string) (ns : Namespace) (seen : list string) (h : string),
    length argv <= n -> h = "-h" \/ h = "--help" -> In h argv ->
    consume main_parser argv ns seen = Err SystemExit.
Proof.
  induction n as [|n IH]; intros argv ns seen h Hlen Hh Hin.
  - destruct argv; [destruct Hin|cbn in Hlen; lia].
  - destruct argv as [|tok rest]; [destruct Hin|].
    destruct Hin as [->|Hin].
    + destruct Hh as [->| ->]; reflexivity.
    + cbn [consume].
      destruct (String.eqb tok "--"); [reflexivity|].
      destruct (parse_optional main_parser tok) as [[|[a|] ex]|e'] eqn:P;
        try reflexivity.
      * destruct (kind a); [|reflexivity].
        destruct ex as [v|].
        -- apply (IH rest _ _ h); [cbn in Hlen; lia|exact Hh|exact Hin].
        -- destruct rest as [|v rest']; [reflexivity|].
           destruct Hin as [->|Hin].
           ++ destruct Hh as [->| ->]; reflexivity.
           ++ destruct (String.eqb v "--"); [reflexivity|].
              destruct (parse_optional main_parser v) as [[|? ?]|]; try reflexivity.
              apply (IH rest' _ _ h); [cbn in Hlen; lia|exact Hh|exact Hin].
      * now rewrite (parse_optional_exit tok e' P).
Qed.

(** A command line that holds [-h] or [--help], wherever it stands, ends
    [main] with [SystemExit] before anything is called. *)
Theorem main_help_exits (argv : list string) (w : env) :
  In "-h" argv \/ In "--help" argv ->
  run (main argv) w = ([], Err SystemExit).
Proof.
  intros Hin. unfold run, main, bind, lift, parse_args.
  assert (Hc : consume main_parser argv (initial_namespace main_parser) []
               = Err SystemExit).
  { destruct Hin as [Hin|Hin].
    - apply (consume_help (length argv) argv _ _ "-h"); auto.
    - apply (consume_help (length argv) argv _ _ "--help"); auto. }
  now rewrite Hc.
Qed.

Lemma main_help_exits_witness :
  run (main ["--databricks_workspace_name"; "ws"; "--build_id"; "7"; "--help"])
    (world_env ready_world)
  = ([], Err SystemExit).
Proof.
  apply main_help_exits. right. cbn [In]. do 4 right. left. reflexivity.
Defined.

Lemma assoc_set_attr_same (ns : Namespace) (name : string) (v : attr_value) :
  assoc name (set_attr ns name v) = Some v.
Proof.
  induction ns as [|[k x] ns IH]; cbn [set_attr assoc].
  - now rewrite String.eqb_refl.
  - destruct (String.eqb k name) eqn:Hk; cbn [assoc]; now rewrite Hk.
Qed.

Lemma get_values_not_none (v : string) : get_values v <> NoneValue.
Proof. unfold get_values. destruct (String.eqb v "--"); discriminate. Qed.

Lemma is_set_set_attr (ns : Namespace) (name other v : string) :
  is_set ns other -> is_set (set_attr ns name (get_values v)) other.
Proof.
  intros Hset. destruct (String.eqb name other) eqn:Hn.
  - apply String.eqb_eq in Hn as ->.
    exists (get_values v). split; [apply assoc_set_attr_same|apply get_values_not_none].
  - unfold is_set. now rewrite assoc_set_attr_other.
Qed.

(** Whatever the parser, the attributes of the options that were read are
    set, and an attribute that was set stays so. *)
Lemma consume_sets (p : Parser) (n : nat) :
  forall (argv : list string) (ns : Namespace) (seen : list string)
         (ns' : Namespace) (seen' : list string),
    length argv <= n ->
    consume p argv ns seen = Ok (ns', seen') ->
    (forall d, In d seen -> is_set ns d) ->
    (forall d, In d seen' -> is_set ns' d)
    /\ (forall d, is_set ns d -> is_set ns' d).
Proof.
  induction n as [|n IH]; intros argv ns seen ns' seen' Hlen.
  - destruct argv; [|cbn in Hlen; lia]. cbn. intros [= <- <-]. auto.
  - destruct argv as [|tok rest]; [cbn; intros [= <- <-]; auto|].
    cbn [consume].
    destruct (String.eqb tok "--"); [discriminate|].
    destruct (parse_optional p tok) as [[|[a|] ex]|]; try discriminate.
    destruct (kind a); [|discriminate].
    assert (Hstep :
      forall v rest',
        length rest' <= n ->
        consume p rest' (set_attr ns (dest a) (get_values v)) (dest a :: seen)
        = Ok (ns', seen') ->
        (forall d, In d seen -> is_set ns d) ->
        (forall d, In d seen' -> is_set ns' d)
        /\ (forall d, is_set ns d -> is_set ns' d)).
    { intros v rest' Hlen' Hc Hseen.
      apply IH in Hc; [|exact Hlen'|].
      - destruct Hc as [H1 H2]. split; [exact H1|].
        intros d Hd. apply H2. now apply is_set_set_attr.
      - intros d [<-|Hd].
        + exists (get_values v).
          split; [apply assoc_set_attr_same|apply get_values_not_none].
        + apply is_set_set_attr. auto. }
    destruct ex as [v|].
    + apply Hstep. cbn in Hlen; lia.
    + destruct rest as [|v rest']; [discriminate|].
      destruct (String.eqb v "--"); [discriminate|].
      destruct (parse_optional p v) as [[|? ?]|]; try discriminate.
      apply Hstep. cbn in Hlen; lia.
Qed.

(** After the command line of [main] was parsed, neither attribute is
    [None]: both can be read, the workspace name is what an option gave, and
    the build identifier is that or its default. *)
Theorem parse_args_attributes_set (argv : list string) (ns : Namespace) :
  parse_args main_parser argv = Ok ns ->
  (exists v, namespace_attr ns "databricks_workspace_name" = Ok v /\ v <> NoneValue)
  /\ (exists v, namespace_attr ns "build_id" = Ok v /\ v <> NoneValue).
Proof.
  unfold parse_args.
  destruct (consume main_parser argv (initial_namespace main_parser) [])
    as [[ns' seen]|e] eqn:Hc; [|discriminate].
  destruct (forallb _ main_parser) eqn:Hreq; [|discriminate].
  intros [= <-].
  destruct (consume_sets main_parser (length argv) argv _ _ _ _ (le_n _) Hc)
    as [Hseen Hkept]; [intros d []|].
  rewrite main_parser_actions in Hreq.
  cbn [forallb required help_action workspace_action build_action negb orb andb dest]
    in Hreq.
  rewrite andb_true_r in Hreq.
  apply existsb_exists in Hreq as (d & Hd & Heq).
  apply String.eqb_eq in Heq as <-.
  unfold namespace_attr. split.
  - destruct (Hseen _ Hd) as (v & -> & Hv). eauto.
  - destruct (Hkept "build_id") as (v & -> & Hv); [|eauto].
    exists (StrValue "local"). split; [reflexivity|discriminate].
Qed.

Lemma parse_args_attributes_set_witness :
  (exists v,
      namespace_attr [("databricks_workspace_name", StrValue "ws"); ("build_id", EmptyList)]
        "databricks_workspace_name" = Ok v /\ v <> NoneValue)
  /\ (exists v,
        namespace_attr [("databricks_workspace_name", StrValue "ws"); ("build_id", EmptyList)]
          "build_id" = Ok v /\ v <> NoneValue).
Proof.
  apply (parse_args_attributes_set ["--databricks_workspace_name"; "ws"; "--build_id=--"]).
  reflexivity.
Defined.

Lemma prefix_in (p s : string) :
  String.prefix p s = true -> In p (string_prefixes s).
Proof.
  revert p; induction s as [|c s IH]; intros [|x p] H; cbn [string_prefixes In];
    auto; cbn [String.prefix] in H; try discriminate.
  right. destruct (ascii_dec x c) as [->|]; [|discriminate].
  apply in_map. auto.
Qed.

Lemma not_dashed_positional (p : Parser) (v : string) :
  String.prefix "-" v = false -> parse_optional p v = Ok Positional.
Proof.
  destruct v as [|c v]; [reflexivity|].
  cbn [String.prefix parse_optional].
  destruct (ascii_dec "-" c) as [<-|Hc].
  - now destruct v.
  - intros _. replace (Ascii.eqb c "-") with false; [reflexivity|].
    symmetry. apply Ascii.eqb_neq. congruence.
Qed.

(** How an abbreviation of [--databricks_workspace_name], and one followed by
    [=value], is read. *)
Lemma workspace_abbreviations (p v : string) :
  String.prefix p workspace_flag = true -> 2 < String.length p ->
  parse_optional main_parser p = Ok (Optional (Some workspace_action) None)
  /\ parse_optional main_parser (p ++ "=" ++ v)
     = Ok (Optional (Some workspace_action) (Some v))
  /\ String.eqb (p ++ "=" ++ v) "--" = false
  /\ String.eqb p "--" = false.
Proof.
  intros Hp Hlen. apply prefix_in in Hp.
  cbn [string_prefixes workspace_flag map In] in Hp.
  repeat (destruct Hp as [<-|Hp];
          [first [ exfalso; cbn [String.length] in Hlen; lia
                 | repeat split; vm_compute; reflexivity ]|]).
  destruct Hp.
Qed.

Lemma build_abbreviations (q b : string) :
  String.prefix q build_flag = true -> 2 < String.length q ->
  parse_optional main_parser q = Ok (Optional (Some build_action) None)
  /\ parse_optional main_parser (q ++ "=" ++ b)
     = Ok (Optional (Some build_action) (Some b))
  /\ String.eqb (q ++ "=" ++ b) "--" = false
  /\ String.eqb q "--" = false.
Proof.
  intros Hq Hlen. apply prefix_in in Hq.
  cbn [string_prefixes build_flag map In] in Hq.
  repeat (destruct Hq as [<-|Hq];
          [first [ exfalso; cbn [String.length] in Hlen; lia
                 | repeat split; vm_compute; reflexivity ]|]).
  destruct Hq.
Qed.

Lemma get_values_positional (v : string) :
  String.prefix "-" v = false -> get_values v = StrValue v /\ String.eqb v "--" = false.
Proof.
  intros Hv. unfold get_values.
  destruct (String.eqb_spec v "--") as [->|]; [discriminate|auto].
Qed.

(** The workspace name may be given under any abbreviation of its option
    longer than the two dashes, in the next argument or after an equals
    sign, before or after the build identifier: the values are stored as
    they were written.  A value in the next argument must not begin with a
    dash; after the equals sign any string is taken, and [--] alone is
    stored as an empty list. *)
Theorem parse_args_accepts (p v : string) :
  String.prefix p workspace_flag = true -> 2 < String.length p ->
  parse_args main_parser [p ++ "=" ++ v]
  = Ok [("databricks_workspace_name", get_values v); ("build_id", StrValue "local")]
  /\ (String.prefix "-" v = false ->
      parse_args main_parser [p; v]
      = Ok [("databricks_workspace_name", StrValue v); ("build_id", StrValue "local")]
      /\ forall q b,
           String.prefix q build_flag = true -> 2 < String.length q ->
           String.prefix "-" b = false ->
           parse_args main_parser [p; v; q; b]
           = Ok [("databricks_workspace_name", StrValue v); ("build_id", StrValue b)]
           /\ parse_args main_parser [q; b; p; v]
              = Ok [("databricks_workspace_name", StrValue v); ("build_id", StrValue b)]
           /\ parse_args main_parser [q ++ "=" ++ b; p; v]
              = Ok [("databricks_workspace_name", StrValue v); ("build_id", get_values b)]).
Proof.
  intros Hp Hlen.
  destruct (workspace_abbreviations p v Hp Hlen) as (Hopt & Heq & Hne & Hne').
  split.
  - unfold parse_args. cbn [consume]. rewrite Hne, Heq. reflexivity.
  - intros Hv.
    pose proof (not_dashed_positional main_parser v Hv) as Hpos.
    destruct (get_values_positional v Hv) as [Hval Hvne].
    split.
    + unfold parse_args. cbn [consume]. rewrite Hne', Hopt, Hvne, Hpos, Hval.
      reflexivity.
    + intros q b Hq Hqlen Hb.
      destruct (build_abbreviations q b Hq Hqlen) as (Hqopt & Hqeq & Hqne & Hqne').
      pose proof (not_dashed_positional main_parser b Hb) as Hbpos.
      destruct (get_values_positional b Hb) as [Hbval Hbne].
      unfold parse_args. cbn [consume].
      rewrite Hne', Hopt, Hvne, Hpos, Hval, Hqne', Hqopt, Hbne, Hbpos, Hbval,
        Hqne, Hqeq, ?Hbval.
      repeat split; reflexivity.
Qed.

Lemma parse_args_accepts_witness :
  parse_args main_parser ["--data" ++ "=" ++ "--"]
  = Ok [("databricks_workspace_name", get_values "--"); ("build_id", StrValue "local")]
  /\ parse_args main_parser ["--data"; "ws"; "--b"; "7"]
     = Ok [("databricks_workspace_name", StrValue "ws"); ("build_id", StrValue "7")].
Proof.
  destruct (parse_args_accepts "--data" "--" eq_refl ltac:(cbn; lia)) as [H1 _].
  destruct (parse_args_accepts "--data" "ws" eq_refl ltac:(cbn; lia)) as [_ H2].
  destruct (H2 eq_refl) as [_ H3].
  destruct (H3 "--b" "7" eq_refl ltac:(cbn; lia) eq_refl) as [H4 _].
  split; [exact H1|exact H4].
Defined.

(** ** The compute target in [main]: a target of another class *)

(** When the workspace has a target named [databricks] whose class is not
    [DatabricksCompute], lines 171-188 of [main] end with the [ValueError] of
    [get_databricks_compute]: nothing is requested, whatever the command line
    and the services. *)
Theorem main_compute_other_class
    (args : Namespace) (aml_workspace : Workspace)
    (dbricks_client : obj DatabricksClient) (w : env) (t : trace)
    (existing : ComputeTarget) :
  assoc "databricks" (compute_targets aml_workspace) = Some existing ->
  compute_class existing <> "DatabricksCompute" ->
  main_compute args aml_workspace dbricks_client w t
  = ((t ++ [Entered "get_databricks_compute"])%list,
     Err (ValueError ("Compute target " ++ compute_id existing
                        ++ " is of different type"))).
Proof.
  intros Hthere Hclass.
  unfold main_compute, get_databricks_compute, bind, enter, lift, ret, raise,
    dict_contains, dict_getitem, object_truthy.
  rewrite Hthere. cbn [negb andb].
  destruct (String.eqb_spec (compute_class existing) "DatabricksCompute");
    [contradiction|reflexivity].
Qed.

Lemma main_compute_other_class_witness :
  main_compute [] other_class_workspace {| handle := 4 |}
    (world_env (quiet_world other_class_workspace)) []
  = (([] ++ [Entered "get_databricks_compute"])%list,
     Err (ValueError ("Compute target " ++ "databricks" ++ " is of different type"))).
Proof.
  apply (main_compute_other_class [] other_class_workspace {| handle := 4 |}
           (world_env (quiet_world other_class_workspace)) []
           {| compute_class := "AmlCompute"; compute_id := "databricks" |}).
  - reflexivity.
  - discriminate.
Defined.

(** ** The checksum in the path of a notebook *)

Lemma be_bytes_length (k : nat) (n : Z) : length (be_bytes k n) = k.
Proof.
  revert n; induction k as [|k IH]; intros n; cbn [be_bytes]; [reflexivity|].
  rewrite length_app, IH. cbn [length]. lia.
Qed.

Lemma be_bytes_range (k : nat) (n b : Z) :
  In b (be_bytes k n) -> (0 <= b < 256)%Z.
Proof.
  revert n; induction k as [|k IH]; intros n; cbn [be_bytes]; [intros []|].
  intros Hin. apply in_app_or in Hin as [Hin|[<-|[]]]; [eauto|].
  change 255%Z with (Z.ones 8). rewrite Z.land_ones by lia.
  change (2 ^ 8)%Z with 256%Z. apply Z.mod_pos_bound. lia.
Qed.

Lemma sha1_bytes (data : bytes) :
  length (sha1 data) = 20 /\ forall b, In b (sha1 data) -> (0 <= b < 256)%Z.
Proof.
  unfold sha1.
  destruct (sha1_blocks _ _ _) as [[[[h0 h1] h2] h3] h4].
  split.
  - rewrite !length_app, !be_bytes_length. reflexivity.
  - intros b Hin.
    repeat (apply in_app_or in Hin as [Hin|Hin];
            [now apply be_bytes_range in Hin|]).
    now apply be_bytes_range in Hin.
Qed.

Lemma hex_digit_in (n : Z) :
  (0 <= n < 16)%Z -> In (hex_digit n) (list_ascii_of_string "0123456789abcdef").
Proof.
  intros Hn.
  assert (H : In n [0; 1; 2; 3; 4; 5; 6; 7; 8; 9; 10; 11; 12; 13; 14; 15]%Z)
    by (cbn [In]; lia).
  cbn [In] in H.
  repeat (destruct H as [<-|H]; [vm_compute; tauto|]).
  destruct H.
Qed.

Lemma hexdigest_format (bs : bytes) :
  (forall b, In b bs -> (0 <= b < 256)%Z) ->
  String.length (hexdigest bs) = 2 * length bs
  /\ forall c, In c (list_ascii_of_string (hexdigest bs)) ->
               In c (list_ascii_of_string "0123456789abcdef").
Proof.
  induction bs as [|b bs IH]; intros Hrange.
  - split; [reflexivity|intros c []].
  - destruct IH as [Hlen Hchars]; [intros x Hx; apply Hrange; now right|].
    assert (Hb : (0 <= b < 256)%Z) by (apply Hrange; now left).
    cbn [hexdigest String.length length list_ascii_of_string].
    split; [rewrite Hlen; lia|].
    intros c [<-|[<-|Hin]]; [| |auto].
    + apply hex_digit_in. rewrite Z.shiftr_div_pow2 by lia.
      change (2 ^ 4)%Z with 16%Z. split.
      * apply Z.div_pos; lia.
      * apply Z.div_lt_upper_bound; lia.
    + apply hex_digit_in. change 15%Z with (Z.ones 4).
      rewrite Z.land_ones by lia. change (2 ^ 4)%Z with 16%Z.
      apply Z.mod_pos_bound. lia.
Qed.

Lemma length_append (a b : string) :
  String.length (a ++ b) = String.length a + String.length b.
Proof. induction a as [|c a IH]; cbn [String.append String.length]; lia. Qed.

(** The checksum that [upload_notebook] puts into the path is forty
    lower-case hexadecimal digits, whatever the notebook is: it is one
    segment of the path, and the path is as long as the folder and the name
    of the notebook together, and forty-two characters more. *)
Theorem upload_notebook_checksum_format
    (notebook_folder content notebook_name : string) :
  String.length (hexdigest (sha1 (encode_utf8 content))) = 40
  /\ (forall c, In c (list_ascii_of_string (hexdigest (sha1 (encode_utf8 content)))) ->
                In c (list_ascii_of_string "0123456789abcdef"))
  /\ String.length (content_path notebook_folder content notebook_name)
     = String.length notebook_folder + String.length notebook_name + 42.
Proof.
  destruct (sha1_bytes (encode_utf8 content)) as [Hlen Hrange].
  destruct (hexdigest_format _ Hrange) as [Hhex Hchars].
  rewrite Hlen in Hhex.
  split; [exact Hhex|]. split; [exact Hchars|].
  unfold content_path. rewrite !length_append, Hhex. cbn [String.length]. lia.
Qed.

(** ** The arguments of the calls of [main]

    The calls of a run are followed along the script; a call that raises
    ends the run, so that what is shown of a call before its answer is known
    holds of the failing run as well. *)

Lemma linked_nil (argv : list string) : linked argv [].
Proof. intros before e after H. now destruct before. Qed.

Lemma linked_snoc (argv : list string) (t : trace) (e : event) :
  linked argv t -> link argv t e -> linked argv (t ++ [e])%list.
Proof.
  intros Ht He before e' after Heq.
  destruct after as [|x after'] using rev_ind.
  - apply (app_inj_tail t before e e') in Heq as [-> ->]. exact He.
  - clear IHafter'. rewrite app_comm_cons, app_assoc in Heq.
    apply app_inj_tail in Heq as [-> _]. now apply (Ht before e' after').
Qed.

Lemma linked_assoc {A B C} (argv : list string) (m : M A) (f : A -> M B)
    (g : B -> M C) (w : env) (t : trace) :
  linked argv (fst (bind m (fun x => bind (f x) g) w t)) ->
  linked argv (fst (bind (bind m f) g w t)).
Proof.
  unfold bind. destruct (m w t) as [t' [a|e]]; [|exact (fun H => H)].
  destruct (f a w t') as [t'' [b|e]]; exact (fun H => H).
Qed.

Lemma linked_call {T B} (argv : list string) (c : call T) (k : T -> M B)
    (w : env) (t : trace) :
  linked argv t ->
  (forall o, link argv t (Called c o)) ->
  (forall v, linked argv (t ++ [Called c (Returns v)])%list ->
             linked argv (fst (k v w (t ++ [Called c (Returns v)])%list))) ->
  linked argv (fst (bind (do_call c) k w t)).
Proof.
  intros Ht Hl Hk. unfold bind, do_call. destruct (w T t c) as [v|e]; cbn [fst].
  - apply Hk. now apply linked_snoc.
  - now apply linked_snoc.
Qed.

Lemma linked_enter {B} (argv : list string) (f : string) (k : unit -> M B)
    (w : env) (t : trace) :
  linked argv t ->
  (linked argv (t ++ [Entered f])%list -> linked argv (fst (k tt w (t ++ [Entered f])%list))) ->
  linked argv (fst (bind (enter f) k w t)).
Proof.
  intros Ht Hk. unfold bind, enter. apply Hk. now apply linked_snoc.
Qed.

Lemma linked_lift {A B} (argv : list string) (r : result A) (k : A -> M B)
    (w : env) (t : trace) :
  linked argv t ->
  (forall a, r = Ok a -> linked argv (fst (k a w t))) ->
  linked argv (fst (bind (lift r) k w t)).
Proof.
  intros Ht Hk. unfold bind, lift. destruct r as [a|e]; cbn [fst]; auto.
Qed.

Lemma linked_ret {A B} (argv : list string) (a : A) (k : A -> M B)
    (w : env) (t : trace) :
  linked argv (fst (k a w t)) -> linked argv (fst (bind (ret a) k w t)).
Proof. exact (fun H => H). Qed.

Lemma linked_get_context {B} (argv : list string) (k : option Run -> M B)
    (w : env) (t : trace) :
  linked argv t ->
  (forall o, link argv t (Called Run_get_context o)) ->
  (forall r, linked argv (t ++ [Called Run_get_context (Returns r)])%list ->
             linked argv (fst (k (Some r) w (t ++ [Called Run_get_context (Returns r)])%list))) ->
  (forall e, linked argv (t ++ [Called Run_get_context (Raises e)])%list ->
             linked argv (fst (k None w (t ++ [Called Run_get_context (Raises e)])%list))) ->
  linked argv
    (fst (bind (try_except (bind (do_call Run_get_context) (fun run => ret (Some run)))
                  (ret None)) k w t)).
Proof.
  intros Ht Hl Hr He. unfold bind, try_except, do_call, ret.
  destruct (w Run t Run_get_context) as [r|e]; cbn [fst].
  - apply Hr. now apply linked_snoc.
  - apply He. now apply linked_snoc.
Qed.

(** Follows both ways of a test of the script, unless the test is decided. *)
Ltac test_of x :=
  let Hx := fresh "Htest" in
  destruct x eqn:Hx;
  try discriminate Hx;
  try (let T := type of Hx in assert_succeeds (assert T by reflexivity); clear Hx).

Ltac follow H :=
  cbv beta;
  lazymatch goal with
  | |- linked _ (fst (bind (bind _ _) _ _ _)) => apply linked_assoc
  | |- linked _ (fst (bind (do_call _) _ _ _)) =>
      apply (linked_call _ _ _ _ _ H);
      [intros ?; link_event | clear H; intros ? H; cbn [app] in H |- *]
  | |- linked _ (fst (bind (enter _) _ _ _)) =>
      apply (linked_enter _ _ _ _ _ H); clear H; intros H; cbn [app] in H |- *
  | |- linked _ (fst (bind (lift _) _ _ _)) =>
      let Heq := fresh "Heq" in
      apply (linked_lift _ _ _ _ _ H); intros ? Heq;
      lazymatch type of Heq with
      | str_add _ ?v = Ok _ =>
          destruct v; cbn [str_add] in Heq;
          [discriminate Heq | injection Heq as <- | discriminate Heq]
      | load_global _ = Ok _ => discriminate Heq
      | _ => idtac
      end
  | |- linked _ (fst (bind (ret _) _ _ _)) => apply linked_ret
  | |- linked _ (fst (bind (raise _) _ _ _)) => exact H
  | |- linked _ (fst (bind (try_except _ _) _ _ _)) =>
      apply (linked_get_context _ _ _ _ H);
      [intros ?; link_event | clear H; intros ? H; cbn [app] in H |- *
       | clear H; intros ? H; cbn [app] in H |- *]
  | |- linked _ (fst (bind (match ?x with _ => _ end) _ _ _)) => test_of x
  | |- linked _ (fst ((match ?x with _ => _ end) _ _)) => test_of x
  | |- linked _ (fst (ret _ _ _)) => exact H
  | |- linked _ (fst (raise _ _ _)) => exact H
  | |- linked _ (fst (lift _ _ _)) => exact H
  end.

Lemma main_run_linked (argv : list string) (w : env) :
  linked argv (fst (run (main argv) w)).
Proof.
  pose proof (linked_nil argv) as H.
  unfold run, main, main_workspace, main_credentials, main_compute,
    main_instance_pool, main_step, main_publish, get_databricks_compute,
    create_databricks_compute, upload_notebook, get_instance_pool.
  repeat follow H.
Qed.

(** ** What the calls of [main] are given *)

Lemma first_some_in {A} (f : event -> option A) (t : trace) (a : A) :
  first_some f t = Some a -> exists e, In e t /\ f e = Some a.
Proof.
  induction t as [|e t IH]; cbn [first_some]; [discriminate|].
  destruct (f e) as [x|] eqn:He.
  - intros [= ->]. exists e. split; [now left|exact He].
  - intros H. destruct (IH H) as (e' & Hin & He'). exists e'. split; [now right|exact He'].
Qed.

Lemma last_some_in {A} (f : event -> option A) (t : trace) (a : A) :
  last_some f t = Some a -> exists e, In e t /\ f e = Some a.
Proof.
  unfold last_some. intros H. apply first_some_in in H as (e & Hin & He).
  exists e. split; [now apply in_rev|exact He].
Qed.

Lemma first_some_app {A} (f : event -> option A) (t d : trace) (a : A) :
  first_some f t = Some a -> first_some f (t ++ d)%list = Some a.
Proof.
  induction t as [|e t IH]; cbn [first_some app]; [discriminate|].
  destruct (f e); auto.
Qed.

Lemma first_some_none {A} (f : event -> option A) (t : trace) (e : event) :
  first_some f t = None -> In e t -> f e = None.
Proof.
  induction t as [|x t IH]; cbn [first_some]; [intros _ []|].
  destruct (f x) eqn:Hx; [discriminate|].
  intros H [<-|Hin]; auto.
Qed.

Ltac invert_returned e H :=
  destruct e as [T c o|f]; [|discriminate H];
  destruct c; try discriminate H;
  cbn in H;
  repeat match type of H with
         | context [String.eqb ?a ?b] =>
             destruct (String.eqb_spec a b); [subst|discriminate H]
         end;
  destruct o; cbn in H; try discriminate H; injection H as <-; eauto.

Lemma returned_run_inv (e : event) (r : Run) :
  returned_run e = Some r -> e = Called Run_get_context (Returns r).
Proof. intros H. invert_returned e H. Qed.

Lemma returned_workspace_inv (e : event) (ws : Workspace) :
  returned_workspace e = Some ws ->
  e = Called Workspace_from_config (Returns ws)
  \/ exists s r n a, e = Called (new_Workspace s r n a) (Returns ws).
Proof. intros H. invert_returned e H. right. eauto 6. Qed.

Lemma returned_secret_inv (name : string) (e : event) (s : string) :
  returned_secret name e = Some s ->
  exists vault, e = Called (get_secret vault name) (Returns s).
Proof. intros H. invert_returned e H. Qed.

Lemma returned_principal_inv (e : event) (a : obj ServicePrincipalAuthentication) :
  returned_principal e = Some a ->
  exists t c s, e = Called (new_ServicePrincipalAuthentication t c s) (Returns a).
Proof. intros H. invert_returned e H. Qed.

Lemma returned_context_inv (e : event) (a : obj AuthenticationContext) :
  returned_context e = Some a ->
  exists uri, e = Called (new_AuthenticationContext uri) (Returns a).
Proof. intros H. invert_returned e H. Qed.

Lemma returned_client_inv (e : event) (a : obj DatabricksClient) :
  returned_client e = Some a ->
  exists api, e = Called (databricks_client_create api) (Returns a).
Proof. intros H. invert_returned e H. Qed.

Lemma returned_listing_inv (e : event) (r : json) :
  returned_listing e = Some r ->
  exists client, e = Called (client_get client "instance-pools/list") (Returns r).
Proof. intros H. invert_returned e H. Qed.

Lemma returned_datastore_inv (name : string) (e : event) (a : obj Datastore) :
  returned_datastore name e = Some a ->
  exists ws, e = Called (new_Datastore ws name) (Returns a).
Proof. intros H. invert_returned e H. Qed.

Lemma returned_reference_inv (e : event) (a : obj DataReference) :
  returned_reference e = Some a ->
  exists ds p n, e = Called (new_DataReference ds p n) (Returns a).
Proof. intros H. invert_returned e H. Qed.

Lemma returned_pipeline_data_inv (e : event) (a : obj PipelineData) :
  returned_pipeline_data e = Some a ->
  exists n ds, e = Called (new_PipelineData n ds) (Returns a).
Proof. intros H. invert_returned e H. Qed.

Lemma returned_text_inv (e : event) (s : string) :
  returned_text e = Some s -> exists path, e = Called (read_text_file path) (Returns s).
Proof. intros H. invert_returned e H. Qed.

Lemma returned_step_inv (e : event) (a : obj DatabricksStep) :
  returned_step e = Some a -> exists args, e = Called (new_DatabricksStep args) (Returns a).
Proof. intros H. invert_returned e H. Qed.

Lemma returned_pipeline_inv (e : event) (a : obj Pipeline) :
  returned_pipeline e = Some a ->
  exists ws steps, e = Called (new_Pipeline ws steps) (Returns a).
Proof. intros H. invert_returned e H. Qed.

Lemma answered_import_inv (e : event) (body : json) :
  answered_import e = Some body ->
  exists client imported,
    e = Called (client_post client "workspace/import" body) (Returns imported).
Proof. intros H. invert_returned e H. Qed.

Lemma linked_before (argv : list string) (t before : trace) (e : event)
    (after : trace) (x : event) :
  linked argv t -> t = (before ++ e :: after)%list -> In x before ->
  exists b a, before = (b ++ x :: a)%list /\ link argv b x.
Proof.
  intros Hl Ht Hin. apply in_split in Hin as (b & a & ->).
  exists b, a. split; [reflexivity|].
  apply (Hl b x (a ++ e :: after)%list).
  rewrite Ht, <- app_assoc. reflexivity.
Qed.

(** What [get_instance_pool] returns is what [pool_id_in] makes of the
    answer to its request. *)
Lemma get_instance_pool_pool_id_in
    (dbricks_client : obj DatabricksClient) (pool_name : string)
    (w : env) (t : trace) (response : json) :
  w json (t ++ [Entered "get_instance_pool"])%list
    (client_get dbricks_client "instance-pools/list") = Returns response ->
  snd (get_instance_pool dbricks_client pool_name w t) = pool_id_in response pool_name.
Proof.
  intros Hw. unfold get_instance_pool, pool_id_in, bind, enter, do_call, lift, ret, rbind.
  rewrite Hw.
  destruct (py_contains "instance_pools" response) as [[|]|]; try reflexivity.
  destruct (py_getitem response "instance_pools") as [pools|]; [|reflexivity].
  destruct (py_iter pools) as [items|]; reflexivity.
Qed.

(** The pipeline that [main] publishes is the one it built in the workspace
    it obtained, from the one step it defined; it is published under the
    name [Feature Engineering] with the build identifier of the command line
    as its version. *)
Theorem main_publish_arguments
    (argv : list string) (w : env) (before : trace) (pipeline : obj Pipeline)
    (name description : string) (version : attr_value)
    (o : outcome (obj PublishedPipeline)) (after : trace) :
  fst (run (main argv) w)
  = (before ++ Called (publish pipeline name description version) o :: after)%list ->
  name = "Feature Engineering"
  /\ description = "Feature engineering pipeline"
  /\ argument argv "build_id" = Ok version
  /\ exists ws step a,
       In (Called (new_Pipeline ws [step]) (Returns pipeline)) before
       /\ In (Called (new_DatabricksStep a) (Returns step)) before
       /\ first_some returned_workspace before = Some ws.
Proof.
  intros Heq.
  pose proof (main_run_linked argv w before _ after Heq) as L.
  cbn [link] in L. destruct L as (Hp & -> & -> & Hv).
  split; [reflexivity|]. split; [reflexivity|]. split; [now symmetry|].
  symmetry in Hp. apply first_some_in in Hp as (e & Hin & He).
  apply returned_pipeline_inv in He as (ws & steps & ->).
  destruct (linked_before argv _ _ _ _ _ (main_run_linked argv w) Heq Hin)
    as (b & a1 & -> & L).
  cbn [link] in L. destruct L as (Hws & Hsteps).
  destruct steps as [|step [|? ?]]; cbn [map] in Hsteps; try discriminate Hsteps.
  injection Hsteps as Hstep. symmetry in Hstep.
  apply first_some_in in Hstep as (e2 & Hin2 & He2).
  apply returned_step_inv in He2 as (a & ->).
  exists ws, step, a. split; [apply in_elt|].
  split; [apply in_or_app; now left|].
  apply first_some_app. now symmetry.
Qed.

(** The step that [main] defines runs the notebook under the path of its
    content, which was imported before; in the pool that
    [get_instance_pool] found in the last listing answered before, [None]
    included; on the target that the workspace has under the name
    [databricks], which is a [DatabricksCompute]; it reads the data
    reference [training] of the data store [trainingdata] and writes the
    pipeline data [feature_engineered] of [workspaceblobstore]. *)
Theorem main_step_arguments
    (argv : list string) (w : env) (before : trace) (a : StepArgs)
    (o : outcome (obj DatabricksStep)) (after : trace) :
  fst (run (main argv) w) = (before ++ Called (new_DatabricksStep a) o :: after)%list ->
  (exists content client imported,
      In (Called (read_text_file (source_file "code/prepare" "feature_engineering"))
            (Returns content)) before
      /\ In (Called (client_post client "workspace/import" (import_request content))
               (Returns imported)) before
      /\ notebook_path a
         = content_path "/Shared/AzureMLDeployed" content "feature_engineering")
  /\ (exists listing,
        last_some returned_listing before = Some listing
        /\ pool_id_in listing "azureml_training" = Ok (instance_pool_id a))
  /\ (exists ws,
        first_some returned_workspace before = Some ws
        /\ assoc "databricks" (compute_targets ws) = Some (compute_target a)
        /\ compute_class (compute_target a) = "DatabricksCompute")
  /\ (exists ws training store reference output,
        first_some returned_workspace before = Some ws
        /\ In (Called (new_Datastore ws "trainingdata") (Returns training)) before
        /\ In (Called (new_DataReference training "/" "training") (Returns reference))
             before
        /\ inputs a = [reference]
        /\ In (Called (new_Datastore ws "workspaceblobstore") (Returns store)) before
        /\ In (Called (new_PipelineData "feature_engineered" store) (Returns output))
             before
        /\ outputs a = [output])
  /\ step_name a = "FeatureEngineering" /\ run_name a = "FeatureEngineering"
  /\ spark_version a = DATABRICKS_RUNTIME_VERSION
  /\ num_workers a = 3%Z /\ allow_reuse a = true.
Proof.
  intros Heq.
  pose proof (main_run_linked argv w) as Hl.
  pose proof (Hl before _ after Heq) as L.
  cbn [link] in L.
  destruct L as (Hname & Hrun & Hspark & Hworkers & Hreuse & Hin & Hout & Hpath
                 & Himport & Hpool & Htarget & Hclass).
  destruct (first_some returned_text before) as [content|] eqn:Htext;
    cbn [option_map] in Hpath, Himport; [|discriminate Hpath].
  destruct (last_some returned_listing before) as [listing|] eqn:Hlisting;
    cbn [option_map] in Hpool; [|discriminate Hpool].
  destruct (first_some returned_workspace before) as [ws|] eqn:Hws;
    cbn [option_map] in Htarget; [|discriminate Htarget].
  injection Hpath as Hpath. injection Hpool as Hpool. injection Htarget as Htarget.
  split; [|split; [|split; [|split]]]; auto.
  - apply first_some_in in Htext as (e & Hine & He).
    apply returned_text_inv in He as (path & ->).
    destruct (linked_before argv _ _ _ _ _ Hl Heq Hine) as (b & a1 & Hb & L).
    cbn [link] in L. subst path.
    apply first_some_in in Himport as (e2 & Hin2 & He2).
    apply answered_import_inv in He2 as (client & imported & ->).
    exists content, client, imported. auto.
  - exists listing. auto.
  - exists ws. split; [reflexivity|]. split; [|exact Hclass].
    unfold dict_getitem in Htarget.
    destruct (assoc "databricks" (compute_targets ws)); congruence.
  - destruct (inputs a) as [|reference [|? ?]]; cbn [map] in Hin; try discriminate Hin.
    destruct (outputs a) as [|output [|? ?]]; cbn [map] in Hout; try discriminate Hout.
    injection Hin as Hin. injection Hout as Hout. symmetry in Hin, Hout.
    apply first_some_in in Hin as (e1 & Hin1 & He1).
    apply returned_reference_inv in He1 as (training & p & n & ->).
    destruct (linked_before argv _ _ _ _ _ Hl Heq Hin1) as (b1 & a1 & Hb1 & L1).
    cbn [link] in L1. destruct L1 as (Htraining & -> & ->).
    symmetry in Htraining. apply first_some_in in Htraining as (e3 & Hin3 & He3).
    apply returned_datastore_inv in He3 as (ws3 & ->).
    apply first_some_in in Hout as (e2 & Hin2 & He2).
    apply returned_pipeline_data_inv in He2 as (n2 & store & ->).
    destruct (linked_before argv _ _ _ _ _ Hl Heq Hin2) as (b2 & a2 & Hb2 & L2).
    cbn [link] in L2. destruct L2 as (-> & Hstore).
    symmetry in Hstore. apply first_some_in in Hstore as (e4 & Hin4 & He4).
    apply returned_datastore_inv in He4 as (ws4 & ->).
    assert (Hin3' : In (Called (new_Datastore ws3 "trainingdata") (Returns training))
                      before)
      by (rewrite Hb1; apply in_or_app; now left).
    assert (Hin4' : In (Called (new_Datastore ws4 "workspaceblobstore") (Returns store))
                      before)
      by (rewrite Hb2; apply in_or_app; now left).
    destruct (linked_before argv _ _ _ _ _ Hl Heq Hin3') as (b3 & a3 & Hb3 & L3).
    destruct (linked_before argv _ _ _ _ _ Hl Heq Hin4') as (b4 & a4 & Hb4 & L4).
    cbn [link] in L3, L4. destruct L3 as (Hws3 & _). destruct L4 as (Hws4 & _).
    symmetry in Hws3, Hws4.
    apply (first_some_app _ _ (Called (new_Datastore ws3 "trainingdata")
                                 (Returns training) :: a3)) in Hws3.
    apply (first_some_app _ _ (Called (new_Datastore ws4 "workspaceblobstore")
                                 (Returns store) :: a4)) in Hws4.
    rewrite <- Hb3, Hws in Hws3. rewrite <- Hb4, Hws in Hws4.
    injection Hws3 as <-. injection Hws4 as <-.
    exists ws, training, store, reference, output. auto 10.
Qed.

(** The Databricks client is authenticated for the workspace named on the
    command line, in the resource group and the subscription of the Azure
    ML workspace that [main] obtained, and it is the client created for the
    region of that workspace; the token callback holds the authentication
    context of the tenant read from the key vault, and the client
    identifier and secret read last. *)
Theorem main_auth_arguments
    (argv : list string) (w : env) (before : trace)
    (client : obj DatabricksClient) (resource_grp : string)
    (workspace_name : attr_value) (subscription : string)
    (token_callback : TokenCallback) (o : outcome unit) (after : trace) :
  fst (run (main argv) w)
  = (before ++ Called (auth_azuread client resource_grp workspace_name subscription
                         token_callback) o :: after)%list ->
  argument argv "databricks_workspace_name" = Ok workspace_name
  /\ (exists ws,
        first_some returned_workspace before = Some ws
        /\ resource_grp = resource_group ws
        /\ subscription = subscription_id ws
        /\ In (Called (databricks_client_create (api_of ws)) (Returns client)) before)
  /\ (exists vault tenant,
        In (Called (get_secret vault "TenantId") (Returns tenant)) before
        /\ In (Called (new_AuthenticationContext (authority_of tenant))
                 (Returns (cb_context token_callback))) before)
  /\ last_some (returned_secret "ClientId") before = Some (cb_client_id token_callback)
  /\ last_some (returned_secret "ClientSecret") before
     = Some (cb_client_secret token_callback).
Proof.
  intros Heq.
  pose proof (main_run_linked argv w) as Hl.
  pose proof (Hl before _ after Heq) as L.
  cbn [link] in L.
  destruct L as (Hclient & Hname & (ws & Hws & -> & ->) & Hctx & Hid & Hsecret).
  split; [now symmetry|]. split; [|split; [|split]]; auto.
  - exists ws. split; [exact Hws|]. split; [reflexivity|]. split; [reflexivity|].
    symmetry in Hclient. apply first_some_in in Hclient as (e & Hin & He).
    apply returned_client_inv in He as (api & ->).
    destruct (linked_before argv _ _ _ _ _ Hl Heq Hin) as (b & a1 & Hb & L).
    cbn [link] in L.
    destruct (first_some returned_workspace b) as [ws'|] eqn:Hws';
      cbn [option_map] in L; [|discriminate L].
    injection L as ->.
    apply (first_some_app _ _ (Called (databricks_client_create (api_of ws'))
                                 (Returns client) :: a1)) in Hws'.
    rewrite <- Hb, Hws in Hws'. injection Hws' as <-. exact Hin.
  - symmetry in Hctx. apply first_some_in in Hctx as (e & Hin & He).
    apply returned_context_inv in He as (uri & ->).
    destruct (linked_before argv _ _ _ _ _ Hl Heq Hin) as (b & a1 & Hb & L).
    cbn [link] in L.
    destruct (last_some (returned_secret "TenantId") b) as [tenant|] eqn:Htenant;
      cbn [option_map] in L; [|discriminate L].
    injection L as ->.
    apply last_some_in in Htenant as (e2 & Hin2 & He2).
    apply returned_secret_inv in He2 as (vault & ->).
    exists vault, tenant. split; [|exact Hin].
    rewrite Hb. apply in_or_app. now left.
Qed.

(** Every request of a run of [main] goes through the client that
    [databricks_client.create] returned.  The token is requested with a
    comment that ends with the build identifier, which is then a string; the
    pool with the fixed description of [azureml_training]; the directory
    and the import with what the content of the notebook that was read
    determines; and nothing else is posted. *)
Theorem main_request_arguments
    (argv : list string) (w : env) (before : trace)
    (client : obj DatabricksClient) (after : trace) :
  (forall endpoint body o,
      fst (run (main argv) w)
      = (before ++ Called (client_post client endpoint body) o :: after)%list ->
      (exists api, In (Called (databricks_client_create api) (Returns client)) before)
      /\ ((endpoint = "token/create"
           /\ exists build, argument argv "build_id" = Ok (StrValue build)
                            /\ body = token_request build)
          \/ (endpoint = "instance-pools/create" /\ body = pool_request)
          \/ (exists path content,
                In (Called (read_text_file path) (Returns content)) before
                /\ ((endpoint = "workspace/mkdirs"
                     /\ body = JObj [("path", JStr (notebook_dir_of content))])
                    \/ (endpoint = "workspace/import"
                        /\ body = import_request content)))))
  /\ (forall endpoint o,
        fst (run (main argv) w)
        = (before ++ Called (client_get client endpoint) o :: after)%list ->
        endpoint = "instance-pools/list"
        /\ exists api, In (Called (databricks_client_create api) (Returns client)) before).
Proof.
  assert (Hcreated : first_some returned_client before = Some client ->
                     exists api,
                       In (Called (databricks_client_create api) (Returns client)) before).
  { intros H. apply first_some_in in H as (e & Hin & He).
    apply returned_client_inv in He as (api & ->). eauto. }
  split.
  - intros endpoint body o Heq.
    pose proof (main_run_linked argv w before _ after Heq) as L.
    cbn [link] in L. destruct L as (Hclient & Hbody).
    split; [now apply Hcreated|].
    destruct (String.eqb_spec endpoint "token/create") as [->|_]; [left; auto|].
    destruct (String.eqb_spec endpoint "instance-pools/create") as [->|_];
      [right; left; auto|].
    right. right.
    destruct (first_some returned_text before) as [content|] eqn:Htext.
    + apply first_some_in in Htext as (e & Hin & He).
      apply returned_text_inv in He as (path & ->).
      exists path, content. split; [exact Hin|].
      cbn [option_map] in Hbody.
      destruct (String.eqb_spec endpoint "workspace/mkdirs") as [->|_];
        [left; split; [reflexivity|congruence]|].
      destruct (String.eqb_spec endpoint "workspace/import") as [->|_];
        [right; split; [reflexivity|congruence]|contradiction].
    + cbn [option_map] in Hbody.
      destruct (String.eqb endpoint "workspace/mkdirs"); [discriminate Hbody|].
      destruct (String.eqb endpoint "workspace/import");
        [discriminate Hbody|contradiction].
  - intros endpoint o Heq.
    pose proof (main_run_linked argv w before _ after Heq) as L.
    cbn [link] in L. destruct L as (Hclient & ->).
    split; [reflexivity|now apply Hcreated].
Qed.

(** In a run, [main] builds the workspace from the subscription, the
    resource group and the name of the workspace of the run, with a service
    principal made of the three secrets of the key vault; it reads the
    workspace of the local configuration only when [Run.get_context] gave no
    run. *)
Theorem main_workspace_arguments
    (argv : list string) (w : env) (before after : trace) :
  (forall subscription resource_grp name auth o,
      fst (run (main argv) w)
      = (before ++ Called (new_Workspace subscription resource_grp name auth) o
           :: after)%list ->
      (exists r,
          In (Called Run_get_context (Returns r)) before
          /\ subscription = subscription_id (experiment_workspace r)
          /\ resource_grp = resource_group (experiment_workspace r)
          /\ name = ws_name (experiment_workspace r))
      /\ exists tenant client secret,
           In (Called (new_ServicePrincipalAuthentication tenant client secret)
                 (Returns auth)) before
           /\ first_some (returned_secret "TenantId") before = Some tenant
           /\ first_some (returned_secret "ClientId") before = Some client
           /\ first_some (returned_secret "ClientSecret") before = Some secret)
  /\ (forall o r,
        fst (run (main argv) w)
        = (before ++ Called Workspace_from_config o :: after)%list ->
        ~ In (Called Run_get_context (Returns r)) before).
Proof.
  pose proof (main_run_linked argv w) as Hl.
  split.
  - intros subscription resource_grp name auth o Heq.
    pose proof (Hl before _ after Heq) as L. cbn [link] in L.
    destruct L as ((r & Hr & -> & -> & ->) & Hauth).
    split.
    + exists r. split; [|auto].
      apply first_some_in in Hr as (e & Hin & He).
      now apply returned_run_inv in He as ->.
    + symmetry in Hauth. apply first_some_in in Hauth as (e & Hin & He).
      apply returned_principal_inv in He as (tenant & client & secret & ->).
      destruct (linked_before argv _ _ _ _ _ Hl Heq Hin) as (b & a1 & Hb & L).
      cbn [link] in L. destruct L as (Ht & Hc & Hs).
      exists tenant, client, secret. split; [exact Hin|].
      rewrite Hb. repeat split; apply first_some_app; now symmetry.
  - intros o r Heq Hin.
    pose proof (Hl before _ after Heq) as L. cbn [link] in L.
    apply (first_some_none _ _ _ L) in Hin. discriminate Hin.
Qed.

Lemma main_publish_arguments_witness :
  argument ready_argv "build_id" = Ok (StrValue "local").
Proof.
  apply (main_publish_arguments ready_argv (world_env ready_world)
           (firstn 26 ready_log) {| handle := 10 |} "Feature Engineering"
           "Feature engineering pipeline" (StrValue "local")
           (Returns {| handle := 11 |}) []).
  vm_compute. reflexivity.
Defined.

Lemma main_step_arguments_witness :
  exists listing,
    last_some returned_listing (firstn 23 ready_log) = Some listing
    /\ pool_id_in listing "azureml_training" = Ok (JStr "pool-1").
Proof.
  apply (main_step_arguments ready_argv (world_env ready_world)
           (firstn 23 ready_log)
           {| step_name := "FeatureEngineering";
              inputs := [{| handle := 7 |}];
              outputs := [{| handle := 8 |}];
              spark_version := DATABRICKS_RUNTIME_VERSION;
              instance_pool_id := JStr "pool-1";
              num_workers := 3;
              notebook_path := content_path "/Shared/AzureMLDeployed" "print(1)"
                                 "feature_engineering";
              run_name := "FeatureEngineering";
              compute_target := databricks_target;
              allow_reuse := true |}
           (Returns {| handle := 9 |}) (skipn 24 ready_log)).
  vm_compute. reflexivity.
Defined.

Lemma main_auth_arguments_witness :
  argument ready_argv "databricks_workspace_name" = Ok (StrValue "ws").
Proof.
  apply (main_auth_arguments ready_argv (world_env ready_world)
           (firstn 8 ready_log) {| handle := 4 |} "rg" (StrValue "ws") "sub"
           {| cb_context := {| handle := 3 |}; cb_client_id := "secret-ClientId";
              cb_client_secret := "secret-ClientSecret" |}
           (Returns tt) (skipn 9 ready_log)).
  vm_compute. reflexivity.
Defined.

Lemma main_request_arguments_witness :
  exists api,
    In (Called (databricks_client_create api) (Returns {| handle := 4 |}))
      (firstn 12 ready_log).
Proof.
  apply (proj1 (main_request_arguments ready_argv (world_env ready_world)
                  (firstn 12 ready_log) {| handle := 4 |} (skipn 13 ready_log))
           "instance-pools/create" pool_request (Returns (JObj []))).
  vm_compute. reflexivity.
Defined.

Lemma main_workspace_arguments_witness :
  exists r,
    In (Called Run_get_context (Returns r)) (firstn 6 run_log)
    /\ "sub" = subscription_id (experiment_workspace r)
    /\ "rg" = resource_group (experiment_workspace r)
    /\ "aml" = ws_name (experiment_workspace r).
Proof.
  apply (proj1 (main_workspace_arguments ready_argv (world_env run_world)
                  (firstn 6 run_log) (skipn 7 run_log))
           "sub" "rg" "aml" {| handle := 2 |} (Returns ready_workspace)).
  vm_compute. reflexivity.
Defined.

(** ** Checks of the model on concrete inputs *)

(** The digests and the encoding agree with [hashlib] and [base64]. *)
Example sha1_known_digests :
  hexdigest (sha1 (encode_utf8 "abc")) = "a9993e364706816aba3e25717850c26c9cd0d89d"
  /\ hexdigest (sha1 (encode_utf8 "")) = "da39a3ee5e6b4b0d3255bfef95601890afd80709"
  /\ hexdigest (sha1 (encode_utf8
        "The quick brown fox jumps over the lazy dog, and then the quick brown fox jumps again."))
     = "32cc7ebec1e37d54a7f82a3dedf2161ed24866f2"
  /\ b64encode (encode_utf8 "hello world!?") = "aGVsbG8gd29ybGQhPw==".
Proof. vm_compute. auto. Qed.

(** argparse accepts an unambiguous prefix of a long option and
    [--opt=value]; the explicit value [--] is stored as an empty list. *)
Example parse_args_abbreviations :
  parse_args main_parser ["--d"; "ws"; "--build=7"]
  = Ok [("databricks_workspace_name", StrValue "ws"); ("build_id", StrValue "7")]
  /\ parse_args main_parser ["--databricks_workspace_name=ws"; "--build_id=--"]
     = Ok [("databricks_workspace_name", StrValue "ws"); ("build_id", EmptyList)]
  /\ parse_args main_parser ["--databricks_workspace_name"; "ws"; "-h"] = Err SystemExit
  /\ parse_args main_parser ["--databricks_workspace_name"; "ws"; "--verbose"]
     = Err SystemExit.
Proof. vm_compute. auto. Qed.

(** With the build identifier [--], the comment of the token request cannot
    be built: the run ends with [TypeError] before [token/create]. *)
Example main_build_id_list :
  snd (run (main ["--databricks_workspace_name=ws"; "--build_id=--"])
         (world_env (quiet_world (workspace_with []))))
  = Err (TypeError "can only concatenate str (not list) to str")
  /\ count (is_post "token/create")
       (fst (run (main ["--databricks_workspace_name=ws"; "--build_id=--"])
               (world_env (quiet_world (workspace_with []))))) = 0.
Proof. vm_compute. auto. Qed.

(** On a body that is not of the schema, a listed pool without a name,
    [get_instance_pool] raises [KeyError]. *)
Example get_instance_pool_key_error :
  snd (get_instance_pool {| handle := 4 |} "azureml_training"
         (world_env {| in_run := false; the_workspace := ready_workspace;
                       pools_before := JObj [("instance_pools", JArr [JObj []])];
                       pools_after := JObj [];
                       token_response := JObj []; notebook_source := "" |}) [])
  = Err (KeyError "instance_pool_name").
Proof. reflexivity. Qed.

(** An existing target of another class ends the run with [ValueError],
    before any request for a token. *)
Example main_other_compute_class :
  snd (run (main ["--databricks_workspace_name"; "ws"])
         (world_env (quiet_world (workspace_with
            [("databricks", {| compute_class := "AmlCompute"; compute_id := "databricks" |})]))))
  = Err (ValueError "Compute target databricks is of different type")
  /\ count (is_post "token/create")
       (fst (run (main ["--databricks_workspace_name"; "ws"])
               (world_env (quiet_world (workspace_with
                  [("databricks", {| compute_class := "AmlCompute";
                                     compute_id := "databricks" |})]))))) = 0.
Proof. vm_compute. auto. Qed.
